(** * Marketer: the content pipeline of [main.py]

    A shallow embedding of [main.py] (strategy loader, idea generator,
    caption generator, image reference stub, dashboard renderer and the
    orchestrator [main]) and the properties of its specification.

    Python strings are sequences of Unicode code points; exceptions are
    values of [exn]; everything the program touches outside itself (the
    strategy file, the text-generation service, the template, the clock, the
    file system) is read from a [world], and everything it does to the
    outside (printing, calling the service, sleeping, writing a file) is
    appended to a log of events. *)

From Stdlib Require Import List NArith ZArith Lia Bool String Ascii DecimalString.
From Stdlib Require DecimalZ DecimalPos.
Import ListNotations.

Set Warnings "-register-all".

(** ** Python strings *)

Module PyStr.

(** A character is a Unicode code point, a string a sequence of them. *)
Abbreviation char := N (only parsing).
Abbreviation str := (list N) (only parsing).

(** An ASCII literal as a Python string. *)
Definition py (s : string) : str := map N_of_ascii (list_ascii_of_string s).

Definition nl : char := 10%N.
Definition quote : char := 34%N.

(** [str.isspace] on one code point: the characters [str.strip()] removes. *)
Definition isspace (c : char) : bool :=
  ((9 <=? c) && (c <=? 13) || (28 <=? c) && (c <=? 32)
   || (c =? 133) || (c =? 160) || (c =? 5760)
   || (8192 <=? c) && (c <=? 8202)
   || (c =? 8232) || (c =? 8233) || (c =? 8239) || (c =? 8287)
   || (c =? 12288))%N.

Definition isdigit (c : char) : bool := ((48 <=? c) && (c <=? 57))%N.

Fixpoint lstrip (s : str) : str :=
  match s with
  | [] => []
  | c :: s' => if isspace c then lstrip s' else s
  end.

Fixpoint rstrip (s : str) : str :=
  match s with
  | [] => []
  | c :: s' =>
      match rstrip s' with
      | [] => if isspace c then [] else [c]
      | r => c :: r
      end
  end.

(** [s.strip()]: the leading whitespace goes, then the trailing one. *)
Definition strip (s : str) : str := rstrip (lstrip s).

Fixpoint startswith (p s : str) : bool :=
  match p, s with
  | [], _ => true
  | _ :: _, [] => false
  | a :: p', b :: s' => (a =? b)%N && startswith p' s'
  end.

(** [s.partition(sep)] at the first (leftmost) occurrence of [sep]: the text
    before it and the text after it, [None] when [sep] does not occur. *)
Fixpoint partition (sep s : str) : option (str * str) :=
  if startswith sep s then Some ([], skipn (List.length sep) s)
  else match s with
       | [] => None
       | c :: s' =>
           match partition sep s' with
           | Some (a, b) => Some (c :: a, b)
           | None => None
           end
       end.

(** [sub in s] *)
Definition contains (sub s : str) : bool :=
  match partition sub s with Some _ => true | None => false end.

(** [sep.join(l)] *)
Fixpoint join (sep : str) (l : list str) : str :=
  match l with
  | [] => []
  | [x] => x
  | x :: rest => x ++ sep ++ join sep rest
  end.

(** The loop of [str.split]: at most [n] cuts, each at the leftmost
    occurrence of [sep] in what is left. *)
Fixpoint split_n (sep : str) (n : nat) (s : str) : list str :=
  match n with
  | O => [s]
  | S n' =>
      match partition sep s with
      | None => [s]
      | Some (a, b) => a :: split_n sep n' b
      end
  end.

(** Decimal digits of an [int], as [str(i)] and an f-string print it. *)
Definition decimal (z : Z) : str := py (NilZero.string_of_int (Z.to_int z)).

(** Decimal digits of [n], zero-padded on the left to [width] characters
    (the [%d], [%H] ... fields of [strftime]). *)
Definition padded (width : nat) (n : N) : str :=
  let d := decimal (Z.of_N n) in
  repeat 48%N (width - List.length d) ++ d.

End PyStr.
Import PyStr.

Arguments py s%_string.

(** ** Exceptions and results *)

Module Py.

Inductive exn_class :=
| IndexError
| KeyError
| TypeError
| ValueError
| OtherError (name : str).

(** An instance of [Exception] or of one of its subclasses, which is what
    [except Exception] catches; [exn_str] is what [str(e)] and an f-string
    placeholder make of it. *)
Record exn := Exn { exn_cls : exn_class; exn_str : str }.

Inductive result (A : Type) :=
| Ok (a : A)
| Raise (e : exn).
Arguments Ok {A} a.
Arguments Raise {A} e.

Definition rbind {A B} (r : result A) (k : A -> result B) : result B :=
  match r with
  | Ok a => k a
  | Raise e => Raise e
  end.

Notation "'let?' x ':=' r 'in' k" := (rbind r (fun x => k))
  (at level 10, x name, r at level 100, k at level 200).

(** [s.split(sep, maxsplit)]; a negative [maxsplit] (the default -1) puts no
    bound on the number of cuts, and a string has at most as many occurrences
    of a non-empty separator as it has characters. *)
Definition split (sep : str) (maxsplit : Z) (s : str) : result (list str) :=
  match sep with
  | [] => Raise (Exn ValueError (py "empty separator"))
  | _ :: _ =>
      Ok (split_n sep
            (if (maxsplit <? 0)%Z then List.length s else Z.to_nat maxsplit) s)
  end.

(** [l[i]] for a list and a non-negative [i]. *)
Definition index {A} (l : list A) (i : nat) : result A :=
  match nth_error l i with
  | Some x => Ok x
  | None => Raise (Exn IndexError (py "list index out of range"))
  end.

(** *** Values read by [json.load] *)

(** A float is kept as its IEEE 754 binary64 bit pattern, a dict as the list
    of its items, in insertion order and with distinct keys. *)
Inductive json :=
| JNull
| JBool (b : bool)
| JInt (z : Z)
| JFloat (bits : N)
| JStr (s : str)
| JList (l : list json)
| JDict (d : list (str * json)).

(** Truth value of a value, as [if not strategy] tests it: [None], [False],
    zero, and the empty string, list and dict are false. *)
Definition truthy (v : json) : bool :=
  match v with
  | JNull => false
  | JBool b => b
  | JInt z => negb (z =? 0)%Z
  | JFloat bits => negb (bits mod 2 ^ 63 =? 0)%N
  | JStr s => match s with [] => false | _ => true end
  | JList l => match l with [] => false | _ => true end
  | JDict d => match d with [] => false | _ => true end
  end.

Definition str_eqb (a b : str) : bool :=
  if list_eq_dec N.eq_dec a b then true else false.

Fixpoint lookup (key : str) (d : list (str * json)) : option json :=
  match d with
  | [] => None
  | (k, v) :: d' => if str_eqb k key then Some v else lookup key d'
  end.

(** [v[key]] for a string key: only a dict can be indexed by a string, and a
    missing key is a [KeyError] whose text is the quoted key.  (The wording of
    the [TypeError] depends on the interpreter; nothing here reads it.) *)
Definition getitem (v : json) (key : str) : result json :=
  match v with
  | JDict d =>
      match lookup key d with
      | Some x => Ok x
      | None => Raise (Exn KeyError (py "'" ++ key ++ py "'"))
      end
  | _ => Raise (Exn TypeError (py "indices must be integers"))
  end.

Fixpoint all_strings (l : list json) : option (list str) :=
  match l with
  | [] => Some []
  | JStr s :: l' =>
      match all_strings l' with
      | Some r => Some (s :: r)
      | None => None
      end
  | _ :: _ => None
  end.

(** [sep.join(v)]: [v] is iterated, and every item must be a string; a string
    iterates over its characters and a dict over its keys. *)
Definition json_join (sep : str) (v : json) : result str :=
  match v with
  | JList l =>
      match all_strings l with
      | Some items => Ok (join sep items)
      | None => Raise (Exn TypeError (py "sequence item: expected str instance"))
      end
  | JStr s => Ok (join sep (map (fun c => [c]) s))
  | JDict d => Ok (join sep (map fst d))
  | _ => Raise (Exn TypeError (py "can only join an iterable"))
  end.

(** An f-string placeholder [{v}]: a string stands for itself, any other
    value for its [repr]. *)
Definition format (repr : json -> str) (v : json) : str :=
  match v with
  | JStr s => s
  | _ => repr v
  end.

End Py.
Import Py.

(** ** The outside world *)

Record Post := mkPost { idea : str; caption : str; image_path : str }.

(** [datetime.now()] *)
Record datetime := mkDatetime {
  year : N; month : N; day : N; hour : N; minute : N; second : N
}.

(** A loaded Jinja template: [render(posts=, month=, generation_date=)]. *)
Definition template := list Post -> str -> str -> result str.

(** What a run does to the outside, in the order it does it.  Printing and
    sleeping are taken not to fail. *)
Inductive event :=
| EPrint (line : str)
| EGenerate (prompt : str)
| ESleep (seconds : Z)
| EWrite (path content : str).

(** What a run reads from the outside.  [w_generate] is the text of the
    response of [text_model.generate_content(prompt)] (or the exception that
    the call, or reading [response.text], raises); it may depend on all that
    happened before. *)
Record world := mkWorld {
  w_repr : json -> str;
  w_load_json : str -> result json;
  w_generate : list event -> str -> result str;
  w_get_template : str -> str -> result template;
  w_now : datetime;
  w_open_write : str -> result unit
}.

(** ** Effects: a reader, state and exception monad *)

Definition M (A : Type) : Type := world -> list event -> result A * list event.

Definition ret {A} (a : A) : M A := fun _ log => (Ok a, log).

Definition bind {A B} (m : M A) (k : A -> M B) : M B :=
  fun w log =>
    match m w log with
    | (Ok a, log') => k a w log'
    | (Raise e, log') => (Raise e, log')
    end.

Notation "x <- m ;; k" := (bind m (fun x => k))
  (at level 61, m at next level, right associativity).
Notation "m ;; k" := (bind m (fun _ => k))
  (at level 61, right associativity).

(** A computation that only reads the world. *)
Definition eval {A} (f : world -> result A) : M A := fun w log => (f w, log).

Definition emit (e : event) : M unit := fun _ log => (Ok tt, log ++ [e]).

Definition print (line : str) : M unit := emit (EPrint line).
Definition sleep (seconds : Z) : M unit := emit (ESleep seconds).

(** [text_model.generate_content(prompt).text] *)
Definition generate_content (prompt : str) : M str :=
  fun w log => (w_generate w log prompt, log ++ [EGenerate prompt]).

(** [with open(path, 'w', encoding='utf-8') as f: f.write(content)] *)
Definition write_file (path content : str) : M unit :=
  fun w log =>
    match w_open_write w path with
    | Ok _ => (Ok tt, log ++ [EWrite path content])
    | Raise e => (Raise e, log)
    end.

(** [try: body  except Exception as e: handler e] *)
Definition try_except {A} (body : M A) (handler : exn -> M A) : M A :=
  fun w log =>
    match body w log with
    | (Ok a, log') => (Ok a, log')
    | (Raise e, log') => handler e w log'
    end.

(** ** The program *)

Definition emoji_check : str := [9989%N].
Definition emoji_brain : str := [129504%N].
Definition emoji_bulb : str := [128161%N].
Definition emoji_cross : str := [10060%N].
Definition emoji_writing : str := [9997%N; 65039%N].
Definition emoji_palette : str := [127912%N].
Definition emoji_chart : str := [128202%N].
Definition emoji_party : str := [127881%N].

Definition msg_loading : str := emoji_check ++ py " Loading marketing strategy...".

(** [load_strategy(filepath)]: [open] and [json.load] are the world's. *)
Definition load_strategy (filepath : str) : M json :=
  print msg_loading ;;
  eval (fun w => w_load_json w filepath).

(** The separator of the numbered list, [". "]. *)
Definition delim : str := py ". ".

(** The comprehension of line 39 over the lines of the response:
    [[line.strip().split('. ', 1)[1] for line in lines if '. ' in line]]. *)
Fixpoint ideas_of_lines (lines : list str) : result (list str) :=
  match lines with
  | [] => Ok []
  | line :: rest =>
      if contains delim line then
        let? parts := split delim 1 (strip line) in
        let? item := index parts 1 in
        let? items := ideas_of_lines rest in
        Ok (item :: items)
      else ideas_of_lines rest
  end.

(** Line 39 as a whole, on [response.text]. *)
Definition parse_ideas (text : str) : result (list str) :=
  let? lines := split [nl] (-1) (strip text) in
  ideas_of_lines lines.

(** The prompt of [generate_post_ideas] (lines 26-34). *)
Definition ideas_prompt (strategy : json) (num_posts : Z) (w : world)
  : result str :=
  let? app_name := getitem strategy (py "appName") in
  let? audience := getitem strategy (py "targetAudience") in
  let? pillars_v := getitem strategy (py "contentPillars") in
  let? pillars := json_join (py ", ") pillars_v in
  Ok ([nl]
      ++ py "    Based on the following marketing strategy for an app called '"
      ++ format (w_repr w) app_name
      ++ py "', generate a list of exactly " ++ decimal num_posts
      ++ py " engaging social media post ideas." ++ [nl]
      ++ py "    The target audience is: " ++ format (w_repr w) audience
      ++ py "." ++ [nl]
      ++ py "    The content should revolve around these pillars: " ++ pillars
      ++ py "." ++ [nl]
      ++ py "    " ++ [nl]
      ++ py "    Return the response as a numbered list of one-sentence ideas. For example:"
      ++ [nl]
      ++ py "    1. A quick tip on how teachers can use technology in the classroom."
      ++ [nl]
      ++ py "    2. Explaining the importance of parent-teacher meetings."
      ++ [nl]
      ++ py "    ").

Definition msg_generating (num_posts : Z) : str :=
  emoji_brain ++ py " Generating " ++ decimal num_posts ++ py " post ideas...".

Definition msg_got (ideas : list str) : str :=
  emoji_bulb ++ py " Got " ++ decimal (Z.of_nat (List.length ideas))
  ++ py " ideas!".

Definition msg_ideas_error (e : exn) : str :=
  emoji_cross ++ py " Error generating ideas: " ++ exn_str e.

Definition generate_post_ideas (strategy : json) (num_posts : Z)
  : M (list str) :=
  print (msg_generating num_posts) ;;
  prompt <- eval (ideas_prompt strategy num_posts) ;;
  try_except
    (text <- generate_content prompt ;;
     ideas <- eval (fun _ => parse_ideas text) ;;
     print (msg_got ideas) ;;
     ret ideas)
    (fun e =>
       print (msg_ideas_error e) ;;
       ret []).

(** The prompt of [generate_caption] (lines 50-56). *)
Definition caption_prompt (strategy : json) (idea : str) (w : world)
  : result str :=
  let? app_name := getitem strategy (py "appName") in
  let? voice := getitem strategy (py "brandVoice") in
  let? audience := getitem strategy (py "targetAudience") in
  Ok ([nl]
      ++ py "    You are the social media manager for '"
      ++ format (w_repr w) app_name
      ++ py "'. Your brand voice is: '" ++ format (w_repr w) voice
      ++ py "'." ++ [nl]
      ++ py "    Write a complete, engaging social media caption based on this idea: "
      ++ [quote] ++ idea ++ [quote] ++ py "." ++ [nl]
      ++ py "    " ++ [nl]
      ++ py "    The caption should be clear, helpful, and directly address the target audience: "
      ++ format (w_repr w) audience ++ py "." ++ [nl]
      ++ py "    Include relevant hashtags. Do not include the original idea in the response."
      ++ [nl]
      ++ py "    ").

Definition caption_sentinel : str := py "Error: Could not generate caption.".

Definition msg_writing (idea : str) : str :=
  emoji_writing ++ py " Writing caption for: '" ++ firstn 30 idea ++ py "...'".

Definition msg_caption_error (e : exn) : str :=
  emoji_cross ++ py " Error generating caption: " ++ exn_str e.

Definition generate_caption (strategy : json) (idea : str) : M str :=
  print (msg_writing idea) ;;
  prompt <- eval (caption_prompt strategy idea) ;;
  try_except
    (text <- generate_content prompt ;;
     ret (strip text))
    (fun e =>
       print (msg_caption_error e) ;;
       ret caption_sentinel).

Definition image_url (post_number : Z) : str :=
  py "https://placehold.co/600x400/1E90FF/FFFFFF?text=Image+for+Post+"
  ++ decimal post_number.

Definition image_error_url : str :=
  py "https://placehold.co/600x400/FF0000/FFFFFF?text=Image+Error".

Definition msg_image (post_number : Z) : str :=
  emoji_palette ++ py " Generating image for post " ++ decimal post_number
  ++ py "...".

Definition msg_image_error (e : exn) : str :=
  emoji_cross ++ py " Error generating image: " ++ exn_str e.

(** The [try] statement of [generate_image] (lines 76-84) around a body. *)
Definition generate_image_try (body : M str) : M str :=
  try_except body
    (fun e =>
       print (msg_image_error e) ;;
       ret image_error_url).

(** [generate_image(image_prompt, post_number)] for an [int] post number. *)
Definition generate_image (image_prompt : str) (post_number : Z) : M str :=
  print (msg_image post_number) ;;
  generate_image_try (ret (image_url post_number)).

Definition full_month_name (m : N) : str :=
  match m with
  | 1 => py "January" | 2 => py "February" | 3 => py "March"
  | 4 => py "April" | 5 => py "May" | 6 => py "June"
  | 7 => py "July" | 8 => py "August" | 9 => py "September"
  | 10 => py "October" | 11 => py "November" | 12 => py "December"
  | _ => []
  end%N.

(** [strftime("%B %Y")], with the month names of the C locale and the four
    digits of the years that a clock gives. *)
Definition strftime_month (d : datetime) : str :=
  full_month_name (month d) ++ py " " ++ padded 4 (year d).

(** [strftime("%Y-%m-%d %H:%M:%S")] *)
Definition strftime_stamp (d : datetime) : str :=
  padded 4 (year d) ++ py "-" ++ padded 2 (month d) ++ py "-"
  ++ padded 2 (day d) ++ py " " ++ padded 2 (hour d) ++ py ":"
  ++ padded 2 (minute d) ++ py ":" ++ padded 2 (second d).

Definition msg_created (output_path : str) : str :=
  emoji_party ++ py " Dashboard created successfully! Open '" ++ output_path
  ++ py "' in your browser.".

Definition msg_rendering : str := emoji_chart ++ py " Generating review dashboard...".

Definition generate_dashboard (posts : list Post) (output_path : str)
  : M unit :=
  print msg_rendering ;;
  tmpl <- eval (fun w => w_get_template w (py "templates") (py "dashboard.html")) ;;
  current_date <- eval (fun w => Ok (w_now w)) ;;
  let month_name := strftime_month current_date in
  let generation_date_str := strftime_stamp current_date in
  html_content <- eval (fun _ => tmpl posts month_name generation_date_str) ;;
  write_file output_path html_content ;;
  print (msg_created output_path).

Definition image_prompt_of (strategy : json) (idea : str) (w : world)
  : result str :=
  let? style := getitem strategy (py "visualStyle") in
  Ok (py "Create an image for a social media post about '" ++ idea
      ++ py "'. The visual style should be: '" ++ format (w_repr w) style
      ++ py "'").

(** The [for] loop of [main] (lines 122-136) from index [i] on, with the
    posts appended so far. *)
Fixpoint main_loop (strategy : json) (i : Z) (ideas : list str)
  (all_posts : list Post) : M (list Post) :=
  match ideas with
  | [] => ret all_posts
  | idea :: rest =>
      caption <- generate_caption strategy idea ;;
      image_prompt <- eval (image_prompt_of strategy idea) ;;
      image_path <- generate_image image_prompt i ;;
      let all_posts := all_posts ++ [mkPost idea caption image_path] in
      sleep 1 ;;
      main_loop strategy (i + 1) rest all_posts
  end.

Definition main : M unit :=
  strategy <- load_strategy (py "strategy.json") ;;
  if negb (truthy strategy) then ret tt
  else
    ideas <- generate_post_ideas strategy 10 ;;
    match ideas with
    | [] => ret tt
    | _ :: _ =>
        all_posts <- main_loop strategy 1 ideas [] ;;
        generate_dashboard all_posts (py "dashboard.html")
    end.

(** ** Vocabulary of the properties *)

(** The pieces of [s] between its line feeds. *)
Fixpoint lines (s : str) : list str :=
  match s with
  | [] => [[]]
  | c :: s' =>
      if (c =? nl)%N then [] :: lines s'
      else match lines s' with
           | l :: rest => (c :: l) :: rest
           | [] => [[c]]
           end
  end.

(** Does [s] begin, or end, with a whitespace character? *)
Definition leading_space (s : str) : bool :=
  match s with
  | [] => false
  | c :: _ => isspace c
  end.

Fixpoint trailing_space (s : str) : bool :=
  match s with
  | [] => false
  | [c] => isspace c
  | _ :: s' => trailing_space s'
  end.

(** A line of a response: an entry [k. sentence] of the numbered list, or
    any other line. *)
Inductive line :=
| Numbered (k sentence : str)
| Other (text : str).

Definition line_text (l : line) : str :=
  match l with
  | Numbered k sentence => k ++ delim ++ sentence
  | Other text => text
  end.

(** A numeral is a non-empty run of digits.  A sentence is not empty, stays
    on its line and does not end in whitespace. *)
Definition is_numeral (k : str) : Prop :=
  k <> [] /\ forallb isdigit k = true.

Definition is_sentence (s : str) : Prop :=
  s <> [] /\ ~ In nl s /\ trailing_space s = false.

Definition line_ok (l : line) : Prop :=
  match l with
  | Numbered k sentence => is_numeral k /\ is_sentence sentence
  | Other text => ~ In nl text /\ contains delim text = false
  end.

(** The sentences of the numbered entries, in order. *)
Fixpoint sentences (ls : list line) : list str :=
  match ls with
  | [] => []
  | Numbered _ sentence :: rest => sentence :: sentences rest
  | Other _ :: rest => sentences rest
  end.

(** The files written, and the prompts sent to the service, in a log. *)
Fixpoint written (log : list event) : list (str * str) :=
  match log with
  | [] => []
  | EWrite path content :: rest => (path, content) :: written rest
  | _ :: rest => written rest
  end.

Fixpoint service_calls (log : list event) : list str :=
  match log with
  | [] => []
  | EGenerate prompt :: rest => prompt :: service_calls rest
  | _ :: rest => service_calls rest
  end.

(** The strategy has what the caption and image prompts read from it. *)
Definition captionable (strategy : json) : Prop :=
  (exists v, getitem strategy (py "appName") = Ok v)
  /\ (exists v, getitem strategy (py "brandVoice") = Ok v)
  /\ (exists v, getitem strategy (py "targetAudience") = Ok v)
  /\ (exists v, getitem strategy (py "visualStyle") = Ok v).

(** ** Sample worlds *)

(** The strategy of the end-to-end example. *)
Definition sample_strategy : json :=
  JDict [ (py "appName", JStr (py "EduApp"));
          (py "targetAudience", JStr (py "K-12 teachers"));
          (py "contentPillars", JList [JStr (py "tips"); JStr (py "stories")]);
          (py "brandVoice", JStr (py "friendly"));
          (py "visualStyle", JStr (py "flat illustration")) ].

(** A template that prints the month, the timestamp and then, post by post,
    the idea, the caption and the image URL, each on a line. *)
Definition sample_template : template :=
  fun posts month generation_date =>
    Ok (month ++ [nl] ++ generation_date ++ [nl]
        ++ List.concat
             (map (fun p => idea p ++ [nl] ++ caption p ++ [nl]
                            ++ image_path p ++ [nl]) posts)).

Definition sample_now : datetime := mkDatetime 2026 11 4 9 5 7.

Definition service_down : exn :=
  Exn (OtherError (py "ServiceUnavailable")) (py "503 service unavailable").

(** A service that answers its n-th call with the n-th of [replies]. *)
Definition scripted (replies : list (result str)) : list event -> str -> result str :=
  fun log _ => nth (List.length (service_calls log)) replies (Raise service_down).

Definition sample_world (strategy_file : result json)
  (service : list event -> str -> result str) : world :=
  mkWorld (fun _ => py "<value>") (fun _ => strategy_file) service
    (fun _ _ => Ok sample_template) sample_now (fun _ => Ok tt).

(** A world with the same template, clock and file system, and nothing else
    in common: no strategy file, another [repr]. *)
Definition other_world (service : list event -> str -> result str) : world :=
  mkWorld (fun _ => []) (fun _ => Raise service_down) service
    (fun _ _ => Ok sample_template) sample_now (fun _ => Ok tt).

Definition sample_posts : list Post :=
  [ mkPost (py "Quick tip on grading.") (py "Grade smarter!")
      (py "https://placehold.co/600x400/1E90FF/FFFFFF?text=Image+for+Post+1") ].

(** A response with two numbered entries around a line of another kind. *)
Definition sample_lines : list line :=
  [ Numbered (py "1") (py "Quick tip on grading.");
    Other (py "(more to come)");
    Numbered (py "2") (py "Share a class story.") ].

(** A response whose first entry has nothing behind its delimiter. *)
Definition blank_entry_response : str :=
  py "1. " ++ [nl] ++ py "2. Share a class story.".

(** A response with two spaces behind the period. *)
Definition wide_entry_response : str := py "1.  Quick tip on grading.".

(** A [try] body that raises. *)
Definition failing_body : M str := fun _ log => (Raise service_down, log).

(** ** Vocabulary of the further properties *)

(** A line that holds the delimiter and loses it when stripped: whitespace
    only follows its last period. *)
Definition blank_entry (l : str) : bool :=
  contains delim l && negb (contains delim (strip l)).

(** What follows the leftmost delimiter of the stripped line. *)
Definition cut (l : str) : str :=
  match partition delim (strip l) with
  | Some (_, rest) => rest
  | None => []
  end.

(** The seconds slept in a log. *)
Fixpoint slept (log : list event) : Z :=
  match log with
  | [] => 0
  | ESleep seconds :: rest => seconds + slept rest
  | _ :: rest => slept rest
  end.

Definition cr : char := 13%N.
Definition crlf : str := [cr; nl].

(** The lines of a text whose line ends are CRLF, as cutting at the line
    feeds leaves them: all but the last end in a carriage return. *)
Fixpoint with_cr (L : list str) : list str :=
  match L with
  | [] => []
  | [x] => [x]
  | x :: rest => (x ++ [cr]) :: with_cr rest
  end.

(** The lines of [join [nl] L] once the text is stripped on the right: the
    blank lines at the end go, and the last line that is not blank is
    stripped. *)
Fixpoint rstrip_lines (L : list str) : list str :=
  match L with
  | [] => []
  | t :: rest =>
      if forallb (forallb isspace) rest then [rstrip t]
      else t :: rstrip_lines rest
  end.

(** A dict without one of its keys, and other values. *)
Definition without (key : str) (v : json) : json :=
  match v with
  | JDict d => JDict (filter (fun kv => negb (str_eqb (fst kv) key)) d)
  | _ => v
  end.

(** ** Strings: stripping *)

Lemma isspace_not_dot c : isspace c = true -> (46 =? c)%N = false.
Proof.
  intros H. destruct (N.eqb_spec 46 c) as [<- | ]; [discriminate H | reflexivity].
Qed.

Lemma isdigit_not_dot c : isdigit c = true -> (46 =? c)%N = false.
Proof.
  intros H. destruct (N.eqb_spec 46 c) as [<- | ]; [discriminate H | reflexivity].
Qed.

Lemma isdigit_not_space c : isdigit c = true -> isspace c = false.
Proof.
  unfold isdigit, isspace. intros H.
  apply andb_true_iff in H as [H1 H2].
  apply N.leb_le in H1. apply N.leb_le in H2.
  repeat match goal with
  | |- context [(?a <=? ?b)%N] => destruct (N.leb_spec a b); try lia
  | |- context [(?a =? ?b)%N] => destruct (N.eqb_spec a b); try lia
  end; reflexivity.
Qed.

Lemma rstrip_nil_iff s : rstrip s = [] <-> forallb isspace s = true.
Proof.
  induction s as [| c s IH]; simpl; [tauto |].
  destruct (rstrip s) eqn:E.
  - destruct (isspace c); simpl.
    + rewrite <- IH. tauto.
    + split; discriminate.
  - split; [discriminate |].
    intros H. apply andb_true_iff in H as [_ H].
    apply IH in H. discriminate.
Qed.

Lemma rstrip_cons c s :
  rstrip (c :: s) =
  match rstrip s with
  | [] => if isspace c then [] else [c]
  | r => c :: r
  end.
Proof. reflexivity. Qed.

Lemma rstrip_app a b :
  rstrip (a ++ b) = match rstrip b with [] => rstrip a | _ => a ++ rstrip b end.
Proof.
  induction a as [| c a IH]; simpl.
  - destruct (rstrip b); reflexivity.
  - rewrite IH. destruct (rstrip b) eqn:E; [reflexivity |].
    destruct a; simpl; reflexivity.
Qed.

Lemma trailing_space_rstrip s : trailing_space (rstrip s) = false.
Proof.
  induction s as [| c s IH]; [reflexivity |].
  rewrite rstrip_cons. destruct (rstrip s) eqn:E.
  - destruct (isspace c) eqn:Ec; simpl; auto.
  - exact IH.
Qed.

Lemma rstrip_fixed s : trailing_space s = false -> rstrip s = s.
Proof.
  induction s as [| c s IH]; [reflexivity |].
  intros H. rewrite rstrip_cons. destruct s as [| d s].
  - simpl in *. rewrite H. reflexivity.
  - rewrite IH by exact H. reflexivity.
Qed.

Lemma trailing_space_app a b : b <> [] -> trailing_space (a ++ b) = trailing_space b.
Proof.
  intros Hb. induction a as [| c a IH]; [reflexivity |].
  simpl. destruct (a ++ b) eqn:E.
  - apply app_eq_nil in E. tauto.
  - exact IH.
Qed.

Lemma lstrip_fixed s : leading_space s = false -> lstrip s = s.
Proof. destruct s as [| c s]; simpl; [reflexivity |]. intros ->. reflexivity. Qed.

Lemma leading_space_rstrip s : leading_space s = false -> leading_space (rstrip s) = false.
Proof.
  destruct s as [| c s]; [reflexivity |]. rewrite rstrip_cons. simpl.
  intros H. destruct (rstrip s); [rewrite H |]; simpl; auto.
Qed.

(** Stripping the two ends in either order gives the same string. *)
Lemma strip_lstrip_rstrip s : strip s = lstrip (rstrip s).
Proof.
  unfold strip. induction s as [| c s IH]; [reflexivity |].
  change (lstrip (c :: s)) with (if isspace c then lstrip s else c :: s).
  destruct (isspace c) eqn:Ec.
  - rewrite IH, rstrip_cons. destruct (rstrip s) eqn:E.
    + rewrite Ec. reflexivity.
    + simpl. rewrite Ec. reflexivity.
  - symmetry. apply lstrip_fixed, leading_space_rstrip. exact Ec.
Qed.

Lemma strip_fixed s : leading_space s = false -> trailing_space s = false -> strip s = s.
Proof.
  intros Hl Ht. unfold strip. rewrite (lstrip_fixed _ Hl). apply rstrip_fixed, Ht.
Qed.

Lemma trailing_space_strip s : trailing_space (strip s) = false.
Proof. apply trailing_space_rstrip. Qed.

Lemma strip_space_cons c s : isspace c = true -> strip (c :: s) = strip s.
Proof. intros H. unfold strip. simpl. rewrite H. reflexivity. Qed.

(** ** Strings: searching and cutting *)

Lemma delim_eq : delim = [46; 32]%N.
Proof. reflexivity. Qed.

Lemma startswith_app sep b : startswith sep (sep ++ b) = true.
Proof.
  induction sep as [| c sep IH]; [reflexivity |].
  simpl. rewrite N.eqb_refl. exact IH.
Qed.

Lemma startswith_spec sep s :
  startswith sep s = true -> s = sep ++ skipn (List.length sep) s.
Proof.
  revert s. induction sep as [| c sep IH]; intros s H; [reflexivity |].
  destruct s as [| d s]; [discriminate H |].
  simpl in H. apply andb_true_iff in H as [Hc Hs].
  apply N.eqb_eq in Hc. subst d. simpl. f_equal. apply IH, Hs.
Qed.

Lemma startswith_prefix sep a b :
  startswith sep a = true -> startswith sep (a ++ b) = true.
Proof.
  revert a. induction sep as [| c sep IH]; intros a H; [reflexivity |].
  destruct a as [| d a]; [discriminate H |].
  simpl in *. apply andb_true_iff in H as [Hc Hs].
  rewrite Hc. simpl. apply IH, Hs.
Qed.

Lemma partition_spec sep s a b :
  partition sep s = Some (a, b) -> s = a ++ sep ++ b.
Proof.
  revert a. induction s as [| c s IH]; intros a H.
  - simpl in H. destruct (startswith sep []) eqn:E; [| discriminate H].
    inversion H; subst. apply startswith_spec in E. exact E.
  - simpl in H. destruct (startswith sep (c :: s)) eqn:E.
    + inversion H; subst. apply startswith_spec in E. exact E.
    + destruct (partition sep s) as [[a' b'] |]; [| discriminate H].
      inversion H; subst. simpl. f_equal. apply IH. reflexivity.
Qed.

(** The occurrence that [partition] cuts at is the leftmost one. *)
Lemma partition_leftmost sep s a b :
  partition sep s = Some (a, b) ->
  forall a' b', s = a' ++ sep ++ b' -> (List.length a <= List.length a')%nat.
Proof.
  revert a. induction s as [| c s IH]; intros a H a' b' E.
  - simpl in H. destruct (startswith sep []); [| discriminate H].
    inversion H; subst. apply Nat.le_0_l.
  - simpl in H. destruct (startswith sep (c :: s)) eqn:Es.
    + inversion H; subst. apply Nat.le_0_l.
    + destruct (partition sep s) as [[a0 b0] |] eqn:Ep; [| discriminate H].
      inversion H; subst. destruct a' as [| c' a'].
      * simpl in E. rewrite E, startswith_app in Es. discriminate Es.
      * inversion E; subst. simpl. apply le_n_S.
        apply (IH a0 eq_refl a' b' eq_refl).
Qed.

Lemma contains_app sub a b : contains sub (a ++ sub ++ b) = true.
Proof.
  unfold contains. induction a as [| c a IH]; simpl.
  - destruct (sub ++ b) eqn:E; simpl; rewrite <- E, startswith_app; reflexivity.
  - destruct (startswith sub (c :: a ++ sub ++ b)); [reflexivity |].
    destruct (partition sub (a ++ sub ++ b)) as [[x y] |]; [reflexivity | discriminate IH].
Qed.

Lemma contains_prefix sub a b :
  contains sub (a ++ b) = false -> contains sub a = false.
Proof.
  unfold contains. induction a as [| c a IH]; simpl.
  - intros H. destruct (startswith sub []) eqn:E; [| reflexivity].
    apply (startswith_prefix _ _ b) in E. simpl in E.
    destruct b; simpl in H; rewrite E in H; discriminate H.
  - intros H. destruct (startswith sub (c :: a)) eqn:E.
    + apply (startswith_prefix _ _ b) in E. simpl in E. rewrite E in H. discriminate H.
    + destruct (startswith sub (c :: a ++ b)); [discriminate H |].
      destruct (partition sub (a ++ b)) as [[x y] |]; [discriminate H |].
      specialize (IH eq_refl).
      destruct (partition sub a) as [[x y] |]; [discriminate IH | reflexivity].
Qed.

Lemma rstrip_prefix s : exists b, s = rstrip s ++ b.
Proof.
  induction s as [| c s [b IH]]; [exists []; reflexivity |].
  rewrite rstrip_cons. destruct (rstrip s) eqn:E.
  - destruct (isspace c); [exists (c :: s) | exists s]; reflexivity.
  - exists b. simpl. f_equal. exact IH.
Qed.

Lemma contains_rstrip sub s : contains sub s = false -> contains sub (rstrip s) = false.
Proof.
  intros H. destruct (rstrip_prefix s) as [b Hb].
  rewrite Hb in H. eapply contains_prefix, H.
Qed.

(** How [partition] walks over one character when the separator is [". "]. *)
Lemma partition_delim_cons c s :
  (46 =? c)%N = false ->
  partition delim (c :: s) =
  match partition delim s with
  | Some (a, b) => Some (c :: a, b)
  | None => None
  end.
Proof.
  intros H. rewrite delim_eq.
  cbn [partition startswith]. rewrite H. reflexivity.
Qed.

Lemma contains_delim_cons c s :
  (46 =? c)%N = false -> contains delim (c :: s) = contains delim s.
Proof.
  intros H. unfold contains. rewrite (partition_delim_cons c s H).
  destruct (partition delim s) as [[a b] |]; reflexivity.
Qed.

Lemma contains_delim_blank s : forallb isspace s = true -> contains delim s = false.
Proof.
  induction s as [| c s IH]; [reflexivity |].
  cbn [forallb]. intros H. apply andb_true_iff in H as [Hc Hs].
  rewrite (contains_delim_cons c s (isspace_not_dot _ Hc)). apply IH, Hs.
Qed.

Lemma partition_numbered k s :
  forallb isdigit k = true -> partition delim (k ++ delim ++ s) = Some (k, s).
Proof.
  induction k as [| c k IH]; [reflexivity |].
  simpl forallb. intros H. apply andb_true_iff in H as [Hc Hk].
  change ((c :: k) ++ delim ++ s) with (c :: k ++ delim ++ s).
  rewrite (partition_delim_cons _ _ (isdigit_not_dot _ Hc)), (IH Hk). reflexivity.
Qed.

(** ** Strings: lines *)

Lemma lines_not_nil s : lines s <> [].
Proof.
  destruct s as [| c s]; simpl; [discriminate |].
  destruct (c =? nl)%N; [discriminate |]. destruct (lines s); discriminate.
Qed.

Lemma lines_no_nl s : ~ In nl s -> lines s = [s].
Proof.
  induction s as [| c s IH]; [reflexivity |].
  intros H. simpl. destruct (N.eqb_spec c nl) as [-> | Hc].
  - exfalso. apply H. left. reflexivity.
  - rewrite IH; [reflexivity |]. intros Hin. apply H. right. exact Hin.
Qed.

Lemma lines_app_nl a b : ~ In nl a -> lines (a ++ nl :: b) = a :: lines b.
Proof.
  induction a as [| c a IH]; [reflexivity |].
  intros H. simpl. destruct (N.eqb_spec c nl) as [-> | Hc].
  - exfalso. apply H. left. reflexivity.
  - rewrite IH; [reflexivity |]. intros Hin. apply H. right. exact Hin.
Qed.

Lemma join_cons sep x y rest :
  join sep (x :: y :: rest) = x ++ sep ++ join sep (y :: rest).
Proof. reflexivity. Qed.

Lemma lines_join L :
  L <> [] -> Forall (fun l => ~ In nl l) L -> lines (join [nl] L) = L.
Proof.
  induction L as [| x L IH]; [congruence |].
  intros _ H. inversion H as [| ? ? Hx HL]; subst.
  destruct L as [| y L].
  - simpl. apply lines_no_nl, Hx.
  - rewrite join_cons. simpl app. rewrite (lines_app_nl _ _ Hx).
    f_equal. apply IH; [discriminate | exact HL].
Qed.

Lemma partition_nl_none s : partition [nl] s = None -> ~ In nl s.
Proof.
  induction s as [| c s IH]; [intros _ [] |].
  cbn [partition startswith].
  destruct (N.eqb_spec nl c) as [<- | Hc]; [discriminate |].
  cbn [andb]. destruct (partition [nl] s) as [[a b] |]; [discriminate |].
  intros _ [Hin | Hin]; [exact (Hc (eq_sym Hin)) | exact (IH eq_refl Hin)].
Qed.

Lemma partition_nl_some s a b :
  partition [nl] s = Some (a, b) -> s = a ++ nl :: b /\ ~ In nl a.
Proof.
  revert a. induction s as [| c s IH]; intros a; [discriminate |].
  cbn [partition startswith].
  destruct (N.eqb_spec nl c) as [<- | Hc]; cbn [andb].
  - intros H. inversion H; subst. split; [reflexivity | intros []].
  - destruct (partition [nl] s) as [[a' b'] |]; [| discriminate].
    intros H. inversion H; subst. destruct (IH a' eq_refl) as [-> Ha].
    split; [reflexivity |].
    intros [Hin | Hin]; [exact (Hc (eq_sym Hin)) | exact (Ha Hin)].
Qed.

Lemma split_n_lines n s : (List.length s <= n)%nat -> split_n [nl] n s = lines s.
Proof.
  revert s. induction n as [| n IH]; intros s Hlen.
  - destruct s; [reflexivity | simpl in Hlen; lia].
  - simpl. destruct (partition [nl] s) as [[a b] |] eqn:E.
    + apply partition_nl_some in E as [-> Ha].
      rewrite (lines_app_nl _ _ Ha). f_equal. apply IH.
      rewrite length_app in Hlen. simpl in Hlen. lia.
    + symmetry. apply lines_no_nl, partition_nl_none, E.
Qed.

(** [s.split('\n')] gives the lines of [s]. *)
Lemma split_lines s : split [nl] (-1) s = Ok (lines s).
Proof. unfold split. simpl. rewrite split_n_lines by lia. reflexivity. Qed.

(** ** The comprehension of line 39 *)

Lemma ideas_skip l rest :
  contains delim l = false -> ideas_of_lines (l :: rest) = ideas_of_lines rest.
Proof. intros H. cbn [ideas_of_lines]. rewrite H. reflexivity. Qed.

Lemma ideas_tail l A B :
  ideas_of_lines A = ideas_of_lines B ->
  ideas_of_lines (l :: A) = ideas_of_lines (l :: B).
Proof. intros H. cbn [ideas_of_lines]. rewrite H. reflexivity. Qed.

Lemma ideas_head l l' rest :
  contains delim l = contains delim l' -> strip l = strip l' ->
  ideas_of_lines (l :: rest) = ideas_of_lines (l' :: rest).
Proof. intros H1 H2. cbn [ideas_of_lines]. rewrite H1, H2. reflexivity. Qed.

Lemma ideas_blank L :
  Forall (fun l => forallb isspace l = true) L -> ideas_of_lines L = Ok [].
Proof.
  induction 1 as [| l L Hl _ IH]; [reflexivity |].
  rewrite ideas_skip; [exact IH | apply contains_delim_blank, Hl].
Qed.

(** Whitespace in front of the response does not change what is parsed. *)
Lemma ideas_lines_lstrip u :
  ideas_of_lines (lines (lstrip u)) = ideas_of_lines (lines u).
Proof.
  induction u as [| c u IH]; [reflexivity |].
  cbn [lstrip]. destruct (isspace c) eqn:Ec; [| reflexivity].
  rewrite IH. cbn [lines]. destruct (N.eqb_spec c nl) as [_ | _].
  - symmetry. apply ideas_skip. reflexivity.
  - destruct (lines u) as [| l rest] eqn:E.
    + exfalso. exact (lines_not_nil u E).
    + symmetry. apply ideas_head.
      * apply contains_delim_cons, isspace_not_dot, Ec.
      * apply strip_space_cons, Ec.
Qed.

Lemma ideas_rstrip_line t rest :
  trailing_space t = false \/ contains delim t = false ->
  ideas_of_lines (rstrip t :: rest) = ideas_of_lines (t :: rest).
Proof.
  intros [H | H].
  - rewrite (rstrip_fixed t H). reflexivity.
  - rewrite (ideas_skip t rest H). apply ideas_skip, contains_rstrip, H.
Qed.

Lemma blank_join L :
  forallb isspace (join [nl] L) = true ->
  Forall (fun l => forallb isspace l = true) L.
Proof.
  induction L as [| x L IH]; [constructor |].
  destruct L as [| y L].
  - intros H. constructor; [exact H | constructor].
  - rewrite join_cons, forallb_app. intros H.
    apply andb_true_iff in H as [Hx H].
    cbn [app forallb] in H. apply andb_true_iff in H as [_ H].
    constructor; [exact Hx | exact (IH H)].
Qed.

Lemma no_nl_rstrip t : ~ In nl t -> ~ In nl (rstrip t).
Proof.
  intros H Hin. apply H. destruct (rstrip_prefix t) as [b Hb].
  rewrite Hb. apply in_or_app. left. exact Hin.
Qed.

(** Whitespace behind the response does not change what is parsed, when a
    line that holds the delimiter does not itself end in whitespace. *)
Lemma ideas_lines_rstrip L :
  L <> [] ->
  Forall (fun t => ~ In nl t
                   /\ (trailing_space t = false \/ contains delim t = false)) L ->
  ideas_of_lines (lines (rstrip (join [nl] L))) = ideas_of_lines L.
Proof.
  induction L as [| t L IH]; [congruence |].
  intros _ H. inversion H as [| ? ? [Hnl Ht] HL]; subst.
  destruct L as [| t2 R].
  - cbn [join]. rewrite (lines_no_nl _ (no_nl_rstrip t Hnl)).
    apply ideas_rstrip_line, Ht.
  - specialize (IH ltac:(discriminate) HL).
    rewrite join_cons. cbn [app]. rewrite rstrip_app, rstrip_cons.
    destruct (rstrip (join [nl] (t2 :: R))) as [| d r] eqn:E.
    + change (isspace nl) with true. cbv iota.
      rewrite (lines_no_nl _ (no_nl_rstrip t Hnl)).
      rewrite (ideas_rstrip_line t [] Ht).
      apply ideas_tail. symmetry.
      apply ideas_blank, blank_join, rstrip_nil_iff, E.
    + rewrite (lines_app_nl _ _ Hnl). apply ideas_tail, IH.
Qed.

Lemma numbered_no_space k s :
  is_numeral k -> is_sentence s ->
  leading_space (k ++ delim ++ s) = false
  /\ trailing_space (k ++ delim ++ s) = false
  /\ ~ In nl (k ++ delim ++ s).
Proof.
  intros [Hk Hd] (Hs & Hnl & Ht). repeat split.
  - destruct k as [| c k]; [congruence |].
    cbn [forallb] in Hd. apply andb_true_iff in Hd as [Hc _].
    apply isdigit_not_space, Hc.
  - rewrite app_assoc, (trailing_space_app _ _ Hs). exact Ht.
  - intros Hin. apply in_app_or in Hin as [Hin | Hin].
    + rewrite forallb_forall in Hd. specialize (Hd _ Hin). discriminate Hd.
    + apply in_app_or in Hin as [Hin | Hin]; [| exact (Hnl Hin)].
      rewrite delim_eq in Hin. destruct Hin as [Hin | [Hin | []]]; discriminate Hin.
Qed.

Lemma ideas_of_numbered ls :
  Forall line_ok ls -> ideas_of_lines (map line_text ls) = Ok (sentences ls).
Proof.
  induction 1 as [| [k s | t] ls Hl _ IH]; [reflexivity | |].
  - destruct Hl as [Hk Hs].
    destruct (numbered_no_space k s Hk Hs) as (Hlead & Htrail & _).
    cbn [map line_text sentences ideas_of_lines].
    rewrite contains_app, (strip_fixed _ Hlead Htrail), IH.
    unfold split. rewrite delim_eq at 1. rewrite delim_eq at 1.
    change (Z.to_nat 1) with 1%nat. cbn [split_n Z.ltb Z.compare].
    rewrite <- delim_eq, (partition_numbered k s (proj2 Hk)). reflexivity.
  - destruct Hl as [_ Hl]. cbn [map line_text sentences].
    rewrite (ideas_skip _ _ Hl). exact IH.
Qed.

Lemma line_ok_tame ls :
  Forall line_ok ls ->
  Forall (fun t => ~ In nl t
                   /\ (trailing_space t = false \/ contains delim t = false))
    (map line_text ls).
Proof.
  induction 1 as [| [k s | t] ls Hl _ IH]; constructor; try exact IH.
  - destruct Hl as [Hk Hs].
    destruct (numbered_no_space k s Hk Hs) as (_ & Htrail & Hnl).
    split; [exact Hnl | left; exact Htrail].
  - destruct Hl as [Hnl Hl]. split; [exact Hnl | right; exact Hl].
Qed.

Lemma sentences_numbered entries :
  sentences (map (fun e => Numbered (fst e) (snd e)) entries) = map snd entries.
Proof.
  induction entries as [| e entries IH]; [reflexivity |].
  cbn [map sentences]. rewrite IH. reflexivity.
Qed.

Lemma sentences_other texts : sentences (map Other texts) = [].
Proof.
  induction texts as [| t texts IH]; [reflexivity | exact IH].
Qed.

(** The parser on a response made of numbered entries and other lines. *)
Lemma parse_ideas_numbered ls :
  Forall line_ok ls ->
  parse_ideas (join [nl] (map line_text ls)) = Ok (sentences ls).
Proof.
  intros H. unfold parse_ideas.
  rewrite split_lines. cbn [rbind].
  rewrite strip_lstrip_rstrip, ideas_lines_lstrip.
  destruct ls as [| l ls]; [reflexivity |].
  rewrite ideas_lines_rstrip.
  - apply ideas_of_numbered, H.
  - discriminate.
  - apply line_ok_tame, H.
Qed.

(** ** Running the program *)

Lemma bind_ok {A B} (m : M A) (k : A -> M B) w log a log' :
  m w log = (Ok a, log') -> bind m k w log = k a w log'.
Proof. intros H. unfold bind. rewrite H. reflexivity. Qed.

Lemma bind_raise {A B} (m : M A) (k : A -> M B) w log e log' :
  m w log = (Raise e, log') -> bind m k w log = (Raise e, log').
Proof. intros H. unfold bind. rewrite H. reflexivity. Qed.

Lemma written_app a b : written (a ++ b) = written a ++ written b.
Proof.
  induction a as [| [l | p | n | p c] a IH]; simpl; rewrite ?IH; reflexivity.
Qed.

Lemma service_calls_app a b :
  service_calls (a ++ b) = service_calls a ++ service_calls b.
Proof.
  induction a as [| [l | p | n | p c] a IH]; simpl; rewrite ?IH; reflexivity.
Qed.

Ltac run :=
  cbv [generate_post_ideas generate_caption generate_image generate_image_try
       generate_dashboard load_strategy
       bind print sleep emit eval try_except generate_content write_file ret].

Ltac flatten_log := repeat rewrite <- app_assoc; cbn [app].

(** The idea generator on a response that parses. *)
Lemma generate_post_ideas_parsed strategy num_posts w log prompt text ideas :
  ideas_prompt strategy num_posts w = Ok prompt ->
  w_generate w (log ++ [EPrint (msg_generating num_posts)]) prompt = Ok text ->
  parse_ideas text = Ok ideas ->
  generate_post_ideas strategy num_posts w log =
  (Ok ideas,
   log ++ [EPrint (msg_generating num_posts); EGenerate prompt;
           EPrint (msg_got ideas)]).
Proof.
  intros Hp Hg Hi. run. rewrite Hp, Hg, Hi. flatten_log. reflexivity.
Qed.

(** The idea generator when the [try] block raises, in the call or in the
    parsing. *)
Lemma generate_post_ideas_call_failed strategy num_posts w log prompt e :
  ideas_prompt strategy num_posts w = Ok prompt ->
  w_generate w (log ++ [EPrint (msg_generating num_posts)]) prompt = Raise e ->
  generate_post_ideas strategy num_posts w log =
  (Ok [],
   log ++ [EPrint (msg_generating num_posts); EGenerate prompt;
           EPrint (msg_ideas_error e)]).
Proof.
  intros Hp Hg. run. rewrite Hp, Hg. flatten_log. reflexivity.
Qed.

Lemma generate_post_ideas_parse_failed strategy num_posts w log prompt text e :
  ideas_prompt strategy num_posts w = Ok prompt ->
  w_generate w (log ++ [EPrint (msg_generating num_posts)]) prompt = Ok text ->
  parse_ideas text = Raise e ->
  generate_post_ideas strategy num_posts w log =
  (Ok [],
   log ++ [EPrint (msg_generating num_posts); EGenerate prompt;
           EPrint (msg_ideas_error e)]).
Proof.
  intros Hp Hg Hi. run. rewrite Hp, Hg, Hi. flatten_log. reflexivity.
Qed.

(** What the idea generator can return and do, whatever the world. *)
Lemma generate_post_ideas_cases strategy num_posts w log r log' :
  generate_post_ideas strategy num_posts w log = (r, log') ->
  (exists e, r = Raise e /\ ideas_prompt strategy num_posts w = Raise e
             /\ log' = log ++ [EPrint (msg_generating num_posts)])
  \/ (exists prompt text ideas,
        r = Ok ideas
        /\ w_generate w (log ++ [EPrint (msg_generating num_posts)]) prompt
           = Ok text
        /\ parse_ideas text = Ok ideas
        /\ log' = log ++ [EPrint (msg_generating num_posts); EGenerate prompt;
                          EPrint (msg_got ideas)])
  \/ (exists prompt e,
        r = Ok []
        /\ log' = log ++ [EPrint (msg_generating num_posts); EGenerate prompt;
                          EPrint (msg_ideas_error e)]).
Proof.
  destruct (ideas_prompt strategy num_posts w) as [prompt | e] eqn:Hp.
  - destruct (w_generate w (log ++ [EPrint (msg_generating num_posts)]) prompt)
      as [text | e] eqn:Hg.
    + destruct (parse_ideas text) as [ideas | e] eqn:Hi.
      * rewrite (generate_post_ideas_parsed _ _ _ _ _ _ _ Hp Hg Hi).
        intros H. inversion H; subst. right. left. eauto 8.
      * rewrite (generate_post_ideas_parse_failed _ _ _ _ _ _ _ Hp Hg Hi).
        intros H. inversion H; subst. right. right. eauto.
    + rewrite (generate_post_ideas_call_failed _ _ _ _ _ _ Hp Hg).
      intros H. inversion H; subst. right. right. eauto.
  - run. rewrite Hp. intros H. inversion H; subst. left. eauto.
Qed.

(** Each idea is what follows the leftmost delimiter of a stripped line. *)
Lemma ideas_of_lines_cut L ideas :
  ideas_of_lines L = Ok ideas ->
  forall i, In i ideas ->
  exists line before,
    In line L /\ contains delim line = true
    /\ partition delim (strip line) = Some (before, i).
Proof.
  revert ideas. induction L as [| l L IH]; intros ideas.
  - intros H. inversion H. intros i [].
  - cbn [ideas_of_lines]. destruct (contains delim l) eqn:Ec.
    + unfold split. rewrite delim_eq at 1. rewrite delim_eq at 1.
      change (Z.to_nat 1) with 1%nat. cbn [split_n Z.ltb Z.compare rbind].
      rewrite <- delim_eq.
      destruct (partition delim (strip l)) as [[a b] |] eqn:E;
        cbn [index nth_error rbind]; [| discriminate].
      destruct (ideas_of_lines L) as [items |]; [| discriminate].
      intros H. inversion H; subst. intros i [<- | Hin].
      * exists l, a. repeat split; [left; reflexivity | exact Ec | exact E].
      * destruct (IH items eq_refl i Hin) as (line & before & H1 & H2).
        exists line, before. split; [right; exact H1 | exact H2].
    + intros H i Hin.
      destruct (IH ideas H i Hin) as (line & before & H1 & H2).
      exists line, before. split; [right; exact H1 | exact H2].
Qed.

Lemma ideas_of_lines_trimmed L ideas :
  ideas_of_lines L = Ok ideas -> Forall (fun i => trailing_space i = false) ideas.
Proof.
  revert ideas. induction L as [| l L IH]; intros ideas.
  - intros H. inversion H. constructor.
  - cbn [ideas_of_lines]. destruct (contains delim l); [| apply IH].
    unfold split. rewrite delim_eq at 1. rewrite delim_eq at 1.
    change (Z.to_nat 1) with 1%nat. cbn [split_n Z.ltb Z.compare rbind].
    rewrite <- delim_eq.
    destruct (partition delim (strip l)) as [[a b] |] eqn:E;
      cbn [index nth_error rbind]; [| discriminate].
    destruct (ideas_of_lines L) as [items |]; [| discriminate].
    intros H. inversion H; subst. constructor; [| apply IH; reflexivity].
    apply partition_spec in E. destruct b as [| c b]; [reflexivity |].
    pose proof (trailing_space_strip l) as Ht.
    rewrite E, app_assoc, trailing_space_app in Ht by discriminate. exact Ht.
Qed.

Lemma parse_ideas_trimmed text ideas :
  parse_ideas text = Ok ideas -> Forall (fun i => trailing_space i = false) ideas.
Proof.
  unfold parse_ideas. rewrite split_lines. cbn [rbind].
  apply ideas_of_lines_trimmed.
Qed.

Lemma no_nl_check s : existsb (N.eqb nl) s = false -> ~ In nl s.
Proof.
  intros H Hin. assert (existsb (N.eqb nl) s = true) as E; [| congruence].
  apply existsb_exists. exists nl. split; [exact Hin | apply N.eqb_refl].
Qed.

Ltac line_ok_tac :=
  repeat match goal with
  | |- Forall _ _ => constructor
  | |- line_ok _ => split
  | |- is_numeral _ => split
  | |- is_sentence _ => split; [| split]
  | |- ~ In nl _ => apply no_nl_check; reflexivity
  | |- _ <> [] => discriminate
  | |- _ = _ => reflexivity
  end.

(** ** The idea generator *)

(** C1. When the service answers with numbered entries [k. sentence] (a
    numeral, the delimiter, a sentence), possibly among lines that lack the
    delimiter, [generate_post_ideas] returns exactly the sentences of the
    entries, in their order: N entries give their N sentences, the lines
    without the delimiter are dropped, and a response with no entry at all
    gives the empty list. *)
Theorem generate_post_ideas_numbered_list strategy num_posts w log prompt ls :
  ideas_prompt strategy num_posts w = Ok prompt ->
  Forall line_ok ls ->
  w_generate w (log ++ [EPrint (msg_generating num_posts)]) prompt
  = Ok (join [nl] (map line_text ls)) ->
  generate_post_ideas strategy num_posts w log =
  (Ok (sentences ls),
   log ++ [EPrint (msg_generating num_posts); EGenerate prompt;
           EPrint (msg_got (sentences ls))]).
Proof.
  intros Hp Hok Hg.
  apply (generate_post_ideas_parsed _ _ _ _ _ _ _ Hp Hg).
  apply parse_ideas_numbered, Hok.
Qed.

Lemma generate_post_ideas_numbered_list_witness :
  fst (generate_post_ideas sample_strategy 10
         (sample_world (Ok sample_strategy)
            (scripted [Ok (join [nl] (map line_text sample_lines))])) [])
  = Ok [py "Quick tip on grading."; py "Share a class story."].
Proof.
  refine (f_equal fst
            (generate_post_ideas_numbered_list sample_strategy 10
               (sample_world (Ok sample_strategy)
                  (scripted [Ok (join [nl] (map line_text sample_lines))]))
               [] _ sample_lines _ _ _)).
  - reflexivity.
  - unfold sample_lines. line_ok_tac.
  - reflexivity.
Defined.

(** C6, as the code has it. Every idea that [generate_post_ideas] returns is
    free of trailing whitespace: the line is stripped before it is cut, and
    the idea is what follows the first delimiter of the stripped line. *)
Theorem generate_post_ideas_no_trailing_space strategy num_posts w log ideas log' :
  generate_post_ideas strategy num_posts w log = (Ok ideas, log') ->
  Forall (fun i => trailing_space i = false) ideas
  /\ forall i, In i ideas ->
     exists prompt text line before,
       w_generate w (log ++ [EPrint (msg_generating num_posts)]) prompt = Ok text
       /\ In line (lines (strip text))
       /\ strip line = before ++ delim ++ i
       /\ forall a b, strip line = a ++ delim ++ b ->
                      (List.length before <= List.length a)%nat.
Proof.
  intros H. apply generate_post_ideas_cases in H.
  destruct H as [(e & H & _)
                | [(prompt & text & ideas' & H & Hg & Hi & _) | (prompt & e & H & _)]].
  - discriminate H.
  - inversion H; subst ideas'. split; [apply (parse_ideas_trimmed text), Hi |].
    intros i Hin. unfold parse_ideas in Hi. rewrite split_lines in Hi.
    cbn [rbind] in Hi.
    destruct (ideas_of_lines_cut _ _ Hi i Hin) as (line & before & Hl & _ & Hp).
    exists prompt, text, line, before.
    split; [exact Hg | split; [exact Hl | split]].
    + apply partition_spec, Hp.
    + apply (partition_leftmost _ _ _ _ Hp).
  - inversion H; subst. split; [constructor | intros i []].
Qed.

Lemma generate_post_ideas_no_trailing_space_witness :
  Forall (fun i => trailing_space i = false) [py " Quick tip on grading."].
Proof.
  refine (proj1 (generate_post_ideas_no_trailing_space sample_strategy 10
            (sample_world (Ok sample_strategy) (scripted [Ok wide_entry_response]))
            [] _ _ _)).
  vm_compute. reflexivity.
Defined.

(** C6 as stated fails: after ["1.  Quick tip on grading."], with two spaces
    behind the period, the idea returned begins with a space. *)
Lemma generate_post_ideas_leading_space :
  ~ (forall strategy num_posts w log ideas log',
       generate_post_ideas strategy num_posts w log = (Ok ideas, log') ->
       Forall (fun i => leading_space i = false /\ trailing_space i = false)
         ideas).
Proof.
  intros H.
  pose (w := sample_world (Ok sample_strategy) (scripted [Ok wide_entry_response])).
  assert (generate_post_ideas sample_strategy 10 w []
          = (Ok [py " Quick tip on grading."],
             snd (generate_post_ideas sample_strategy 10 w []))) as E
    by (vm_compute; reflexivity).
  apply H in E. inversion E as [| ? ? [Hl _] _]. discriminate Hl.
Qed.

(** C8. There is a response with a well-formed entry from which
    [generate_post_ideas] returns nothing, [blank_entry_response]: its line
    ["1. "] holds the delimiter, the stripped line ["1."] does not, so the cut
    has one part only, [[1]] raises [IndexError] inside the comprehension, and
    the handler returns the empty list although the second line alone parses
    to an idea. *)
Theorem blank_entry_discards_every_idea :
  In (py "2. Share a class story.") (lines (strip blank_entry_response))
  /\ parse_ideas (py "2. Share a class story.") = Ok [py "Share a class story."]
  /\ In (py "1. ") (lines (strip blank_entry_response))
  /\ contains delim (py "1. ") = true
  /\ contains delim (strip (py "1. ")) = false
  /\ (let? parts := split delim 1 (strip (py "1. ")) in index parts 1)
     = Raise (Exn IndexError (py "list index out of range"))
  /\ parse_ideas blank_entry_response
     = Raise (Exn IndexError (py "list index out of range"))
  /\ forall strategy num_posts w log prompt,
       ideas_prompt strategy num_posts w = Ok prompt ->
       w_generate w (log ++ [EPrint (msg_generating num_posts)]) prompt
       = Ok blank_entry_response ->
       generate_post_ideas strategy num_posts w log =
       (Ok [],
        log ++ [EPrint (msg_generating num_posts); EGenerate prompt;
                EPrint (msg_ideas_error
                          (Exn IndexError (py "list index out of range")))]).
Proof.
  repeat split.
  - vm_compute. right. left. reflexivity.
  - vm_compute. left. reflexivity.
  - intros strategy num_posts w log prompt Hp Hg.
    apply (generate_post_ideas_parse_failed _ _ _ _ _ _ _ Hp Hg). reflexivity.
Qed.

Lemma blank_entry_discards_every_idea_witness :
  fst (generate_post_ideas sample_strategy 10
         (sample_world (Ok sample_strategy) (scripted [Ok blank_entry_response]))
         [])
  = Ok [].
Proof.
  refine (f_equal fst
            (proj2 (proj2 (proj2 (proj2 (proj2 (proj2 (proj2
               blank_entry_discards_every_idea))))))
               sample_strategy 10%Z
               (sample_world (Ok sample_strategy)
                  (scripted [Ok blank_entry_response]))
               [] _ _ _)); reflexivity.
Defined.

(** ** The caption generator and the image reference *)

Lemma generate_caption_ok strategy idea w log prompt text :
  caption_prompt strategy idea w = Ok prompt ->
  w_generate w (log ++ [EPrint (msg_writing idea)]) prompt = Ok text ->
  generate_caption strategy idea w log =
  (Ok (strip text), log ++ [EPrint (msg_writing idea); EGenerate prompt]).
Proof.
  intros Hp Hg. run. rewrite Hp, Hg. flatten_log. reflexivity.
Qed.

Lemma generate_caption_failed strategy idea w log prompt e :
  caption_prompt strategy idea w = Ok prompt ->
  w_generate w (log ++ [EPrint (msg_writing idea)]) prompt = Raise e ->
  generate_caption strategy idea w log =
  (Ok caption_sentinel,
   log ++ [EPrint (msg_writing idea); EGenerate prompt;
           EPrint (msg_caption_error e)]).
Proof.
  intros Hp Hg. run. rewrite Hp, Hg. flatten_log. reflexivity.
Qed.

Lemma caption_prompt_total strategy idea w :
  captionable strategy -> exists prompt, caption_prompt strategy idea w = Ok prompt.
Proof.
  intros ([a Ha] & [b Hb] & [c Hc] & _).
  unfold caption_prompt. rewrite Ha, Hb, Hc. cbn [rbind]. eauto.
Qed.

Lemma image_prompt_total strategy idea w :
  captionable strategy -> exists prompt, image_prompt_of strategy idea w = Ok prompt.
Proof.
  intros (_ & _ & _ & [d Hd]).
  unfold image_prompt_of. rewrite Hd. cbn [rbind]. eauto.
Qed.

Lemma generate_caption_total strategy idea w log :
  captionable strategy ->
  exists c log',
    generate_caption strategy idea w log = (Ok c, log')
    /\ (c = caption_sentinel \/ exists text, c = strip text).
Proof.
  intros H. destruct (caption_prompt_total strategy idea w H) as [prompt Hp].
  destruct (w_generate w (log ++ [EPrint (msg_writing idea)]) prompt)
    as [text | e] eqn:Hg.
  - rewrite (generate_caption_ok _ _ _ _ _ _ Hp Hg). eauto 6.
  - rewrite (generate_caption_failed _ _ _ _ _ _ Hp Hg). eauto 6.
Qed.

Lemma generate_image_run image_prompt post_number w log :
  generate_image image_prompt post_number w log =
  (Ok (image_url post_number), log ++ [EPrint (msg_image post_number)]).
Proof. reflexivity. Qed.

Lemma eval_ok {A} (f : world -> result A) w log a :
  f w = Ok a -> eval f w log = (Ok a, log).
Proof. intros H. unfold eval. rewrite H. reflexivity. Qed.

(** The loop of [main] goes through all the ideas whatever the service
    does, once the strategy has the keys that the prompts read. *)
Lemma main_loop_total strategy :
  captionable strategy ->
  forall ideas i all_posts w log,
  exists posts log',
    main_loop strategy i ideas all_posts w log = (Ok (all_posts ++ posts), log')
    /\ map idea posts = ideas
    /\ Forall (fun p => caption p = caption_sentinel
                        \/ exists text, caption p = strip text) posts
    /\ forall n p, nth_error posts n = Some p ->
                   image_path p = image_url (i + Z.of_nat n).
Proof.
  intros Hs. induction ideas as [| x ideas IH]; intros i all_posts w log.
  - exists [], log. rewrite app_nil_r. repeat split; [constructor |].
    intros [| n] p H; discriminate H.
  - cbn [main_loop].
    destruct (generate_caption_total strategy x w log Hs) as (c & log1 & Hc & Hcap).
    rewrite (bind_ok _ _ _ _ _ _ Hc).
    destruct (image_prompt_total strategy x w Hs) as [ip Hip].
    rewrite (bind_ok _ _ _ _ _ _ (eval_ok _ _ log1 _ Hip)).
    rewrite (bind_ok _ _ _ _ _ _ (generate_image_run ip i w log1)).
    rewrite (bind_ok (sleep 1) _ w _ tt _ eq_refl).
    destruct (IH (i + 1)%Z (all_posts ++ [mkPost x c (image_url i)]) w
                ((log1 ++ [EPrint (msg_image i)]) ++ [ESleep 1]))
      as (posts & log' & Hrun & Hideas & Hcaps & Himg).
    exists (mkPost x c (image_url i) :: posts), log'.
    rewrite Hrun, <- app_assoc. repeat split.
    + cbn [map idea]. rewrite Hideas. reflexivity.
    + constructor; [exact Hcap | exact Hcaps].
    + intros [| n] p H.
      * inversion H; subst. cbn [image_path]. f_equal. lia.
      * cbn [nth_error] in H. rewrite (Himg n p H). f_equal. lia.
Qed.

(** C3. When the caption call fails, [generate_caption] returns the sentinel
    instead of raising; when it succeeds, the stripped text of the response;
    and the loop of [main] turns every idea into a Post, whichever caption
    calls fail. *)
Theorem generate_caption_best_effort :
  (forall strategy idea w log prompt e,
     caption_prompt strategy idea w = Ok prompt ->
     w_generate w (log ++ [EPrint (msg_writing idea)]) prompt = Raise e ->
     generate_caption strategy idea w log =
     (Ok (py "Error: Could not generate caption."),
      log ++ [EPrint (msg_writing idea); EGenerate prompt;
              EPrint (msg_caption_error e)]))
  /\ (forall strategy idea w log prompt text,
        caption_prompt strategy idea w = Ok prompt ->
        w_generate w (log ++ [EPrint (msg_writing idea)]) prompt = Ok text ->
        generate_caption strategy idea w log =
        (Ok (strip text), log ++ [EPrint (msg_writing idea); EGenerate prompt]))
  /\ (forall strategy ideas i all_posts w log,
        captionable strategy ->
        exists posts log',
          main_loop strategy i ideas all_posts w log
          = (Ok (all_posts ++ posts), log')
          /\ map idea posts = ideas
          /\ Forall (fun p => caption p = py "Error: Could not generate caption."
                              \/ exists text, caption p = strip text) posts).
Proof.
  split; [| split].
  - exact generate_caption_failed.
  - exact generate_caption_ok.
  - intros strategy ideas i all_posts w log Hs.
    destruct (main_loop_total strategy Hs ideas i all_posts w log)
      as (posts & log' & H1 & H2 & H3 & _).
    exists posts, log'. auto.
Qed.

Lemma sample_strategy_captionable : captionable sample_strategy.
Proof. repeat split; eexists; reflexivity. Defined.

Lemma generate_caption_best_effort_witness :
  fst (generate_caption sample_strategy (py "Tip on grading")
         (sample_world (Ok sample_strategy) (scripted [Raise service_down])) [])
  = Ok (py "Error: Could not generate caption.")
  /\ exists posts log',
       main_loop sample_strategy 1 [py "Tip on grading"; py "Share a class story."] []
         (sample_world (Ok sample_strategy)
            (scripted [Raise service_down; Ok (py " Stories stick. #teaching ")])) []
       = (Ok ([] ++ posts), log')
       /\ map idea posts = [py "Tip on grading"; py "Share a class story."]
       /\ Forall (fun p => caption p = py "Error: Could not generate caption."
                           \/ exists text, caption p = strip text) posts.
Proof.
  split.
  - refine (f_equal fst
              (proj1 generate_caption_best_effort sample_strategy
                 (py "Tip on grading")
                 (sample_world (Ok sample_strategy) (scripted [Raise service_down]))
                 [] _ service_down _ _)); reflexivity.
  - exact (proj2 (proj2 generate_caption_best_effort) sample_strategy
             [py "Tip on grading"; py "Share a class story."] 1%Z []
             (sample_world (Ok sample_strategy)
                (scripted [Raise service_down; Ok (py " Stories stick. #teaching ")]))
             [] sample_strategy_captionable).
Defined.

(** The degraded-caption scenario, run. *)
Example degraded_caption_scenario :
  fst (main_loop sample_strategy 1 [py "Tip on grading"; py "Share a class story."] []
         (sample_world (Ok sample_strategy)
            (scripted [Raise service_down; Ok (py " Stories stick. #teaching ")])) [])
  = Ok [ mkPost (py "Tip on grading") (py "Error: Could not generate caption.")
           (py "https://placehold.co/600x400/1E90FF/FFFFFF?text=Image+for+Post+1");
         mkPost (py "Share a class story.") (py "Stories stick. #teaching")
           (py "https://placehold.co/600x400/1E90FF/FFFFFF?text=Image+for+Post+2") ].
Proof. vm_compute. reflexivity. Qed.

(** C7. [generate_image] returns the templated URL that ends in [Post+]
    and the decimal post number, whatever the prompt; for post number 1 the
    URL holds [Post+1]; and when the body of its [try] raises, the handler
    returns the fixed error URL. *)
Theorem generate_image_templated_url :
  (forall image_prompt post_number w log,
     generate_image image_prompt post_number w log =
     (Ok (py "https://placehold.co/600x400/1E90FF/FFFFFF?text=Image+for+Post+"
          ++ decimal post_number),
      log ++ [EPrint (msg_image post_number)])
     /\ contains (py "Post+" ++ decimal post_number)
          (py "https://placehold.co/600x400/1E90FF/FFFFFF?text=Image+for+Post+"
           ++ decimal post_number) = true)
  /\ (forall image_prompt w log,
        exists url,
          fst (generate_image image_prompt 1 w log) = Ok url
          /\ contains (py "Post+1") url = true)
  /\ (forall body w log e log',
        body w log = (Raise e, log') ->
        generate_image_try body w log =
        (Ok (py "https://placehold.co/600x400/FF0000/FFFFFF?text=Image+Error"),
         log' ++ [EPrint (msg_image_error e)])).
Proof.
  split; [| split].
  - intros image_prompt post_number w log. split; [reflexivity |].
    change (py "https://placehold.co/600x400/1E90FF/FFFFFF?text=Image+for+Post+")
      with (py "https://placehold.co/600x400/1E90FF/FFFFFF?text=Image+for+"
            ++ py "Post+").
    rewrite <- app_assoc.
    rewrite <- (app_nil_r (py "Post+" ++ decimal post_number)) at 2.
    apply contains_app.
  - intros image_prompt w log. eexists. split; reflexivity.
  - intros body w log e log' H. run. rewrite H. reflexivity.
Qed.

Lemma generate_image_templated_url_witness :
  generate_image_try failing_body
    (sample_world (Ok sample_strategy) (scripted [])) []
  = (Ok (py "https://placehold.co/600x400/FF0000/FFFFFF?text=Image+Error"),
     [] ++ [EPrint (msg_image_error service_down)]).
Proof.
  exact (proj2 (proj2 generate_image_templated_url) failing_body
           (sample_world (Ok sample_strategy) (scripted [])) []
           service_down [] eq_refl).
Defined.

(** ** The dashboard renderer *)

Lemma generate_dashboard_run posts output_path w log tmpl html :
  w_get_template w (py "templates") (py "dashboard.html") = Ok tmpl ->
  tmpl posts (strftime_month (w_now w)) (strftime_stamp (w_now w)) = Ok html ->
  w_open_write w output_path = Ok tt ->
  generate_dashboard posts output_path w log =
  (Ok tt,
   log ++ [EPrint msg_rendering; EWrite output_path html;
           EPrint (msg_created output_path)]).
Proof.
  intros Ht Hr Ho. run. rewrite Ht, Hr, Ho. flatten_log. reflexivity.
Qed.

(** C9. With the same template, the same clock and the same file system,
    two runs of [generate_dashboard] on the same posts end alike and do the
    same things, whatever else differs between the two worlds and whatever
    happened before: in particular they write the same content, which is the
    template rendered on the posts, the month label and the timestamp. *)
Theorem generate_dashboard_deterministic posts output_path w1 w2 log1 log2 :
  w_now w1 = w_now w2 ->
  w_get_template w1 (py "templates") (py "dashboard.html")
  = w_get_template w2 (py "templates") (py "dashboard.html") ->
  w_open_write w1 output_path = w_open_write w2 output_path ->
  exists r events,
    generate_dashboard posts output_path w1 log1 = (r, log1 ++ events)
    /\ generate_dashboard posts output_path w2 log2 = (r, log2 ++ events)
    /\ forall tmpl path content,
         w_get_template w1 (py "templates") (py "dashboard.html") = Ok tmpl ->
         In (path, content) (written events) ->
         path = output_path
         /\ tmpl posts (strftime_month (w_now w1)) (strftime_stamp (w_now w1))
            = Ok content.
Proof.
  intros Hnow Htmpl Hopen. run. rewrite <- Hnow, <- Htmpl, <- Hopen.
  destruct (w_get_template w1 (py "templates") (py "dashboard.html"))
    as [tmpl | e] eqn:Ht.
  - destruct (tmpl posts (strftime_month (w_now w1)) (strftime_stamp (w_now w1)))
      as [html | e] eqn:Hr.
    + destruct (w_open_write w1 output_path) as [[] | e].
      * exists (Ok tt),
          [EPrint msg_rendering; EWrite output_path html;
           EPrint (msg_created output_path)].
        flatten_log. split; [reflexivity | split; [reflexivity |]].
        intros tmpl' path content Hq [Hin | []].
        inversion Hin; subst. inversion Hq; subst. split; [reflexivity | exact Hr].
      * exists (Raise e), [EPrint msg_rendering].
        split; [reflexivity | split; [reflexivity |]]. intros ? ? ? _ [].
    + exists (Raise e), [EPrint msg_rendering].
      split; [reflexivity | split; [reflexivity |]]. intros ? ? ? _ [].
  - exists (Raise e), [EPrint msg_rendering].
    split; [reflexivity | split; [reflexivity |]]. intros ? ? ? _ [].
Qed.

Lemma generate_dashboard_deterministic_witness :
  exists r events,
    generate_dashboard sample_posts (py "dashboard.html")
      (sample_world (Ok sample_strategy) (scripted [])) []
    = (r, [] ++ events)
    /\ generate_dashboard sample_posts (py "dashboard.html")
         (other_world (scripted [Ok (py "1. An idea.")]))
         [EPrint msg_loading; ESleep 1]
       = (r, [EPrint msg_loading; ESleep 1] ++ events)
    /\ forall tmpl path content,
         w_get_template (sample_world (Ok sample_strategy) (scripted []))
           (py "templates") (py "dashboard.html") = Ok tmpl ->
         In (path, content) (written events) ->
         path = py "dashboard.html"
         /\ tmpl sample_posts
              (strftime_month (w_now (sample_world (Ok sample_strategy) (scripted []))))
              (strftime_stamp (w_now (sample_world (Ok sample_strategy) (scripted []))))
            = Ok content.
Proof.
  exact (generate_dashboard_deterministic sample_posts (py "dashboard.html")
           (sample_world (Ok sample_strategy) (scripted []))
           (other_world (scripted [Ok (py "1. An idea.")]))
           [] [EPrint msg_loading; ESleep 1] eq_refl eq_refl eq_refl).
Defined.

(** ** The orchestrator *)

Lemma load_strategy_run filepath w log :
  load_strategy filepath w log = (w_load_json w filepath, log ++ [EPrint msg_loading]).
Proof. reflexivity. Qed.

(** [main] returns at line 118 when there are no ideas. *)
Lemma main_without_ideas w log strategy log1 log2 :
  load_strategy (py "strategy.json") w log = (Ok strategy, log1) ->
  truthy strategy = true ->
  generate_post_ideas strategy 10 w log1 = (Ok [], log2) ->
  main w log = (Ok tt, log2).
Proof.
  intros Hl Ht Hg. unfold main.
  rewrite (bind_ok _ _ _ _ _ _ Hl), Ht. cbn [negb].
  rewrite (bind_ok _ _ _ _ _ _ Hg). reflexivity.
Qed.

(** [main] goes on to the loop and the renderer when there are ideas. *)
Lemma main_with_ideas w log strategy log1 ideas log2 :
  load_strategy (py "strategy.json") w log = (Ok strategy, log1) ->
  truthy strategy = true ->
  generate_post_ideas strategy 10 w log1 = (Ok ideas, log2) ->
  ideas <> [] ->
  main w log =
  bind (main_loop strategy 1 ideas [])
       (fun all_posts => generate_dashboard all_posts (py "dashboard.html"))
       w log2.
Proof.
  intros Hl Ht Hg Hne. unfold main.
  rewrite (bind_ok _ _ _ _ _ _ Hl), Ht. cbn [negb].
  rewrite (bind_ok _ _ _ _ _ _ Hg).
  destruct ideas; [congruence | reflexivity].
Qed.

(** C2. When the service call of [generate_post_ideas] raises, the function
    does not: it prints the error and returns the empty list; and [main],
    given the empty list, returns at once, in the state the idea generator
    left. *)
Theorem generate_post_ideas_service_failure :
  (forall strategy num_posts w log prompt e,
     ideas_prompt strategy num_posts w = Ok prompt ->
     w_generate w (log ++ [EPrint (msg_generating num_posts)]) prompt = Raise e ->
     generate_post_ideas strategy num_posts w log =
     (Ok [],
      log ++ [EPrint (msg_generating num_posts); EGenerate prompt;
              EPrint (msg_ideas_error e)]))
  /\ (forall w log strategy log1 log2,
        load_strategy (py "strategy.json") w log = (Ok strategy, log1) ->
        truthy strategy = true ->
        generate_post_ideas strategy 10 w log1 = (Ok [], log2) ->
        main w log = (Ok tt, log2))
  /\ (forall w log strategy prompt e,
        w_load_json w (py "strategy.json") = Ok strategy ->
        truthy strategy = true ->
        ideas_prompt strategy 10 w = Ok prompt ->
        w_generate w (log ++ [EPrint msg_loading; EPrint (msg_generating 10)]) prompt
        = Raise e ->
        main w log =
        (Ok tt,
         log ++ [EPrint msg_loading; EPrint (msg_generating 10);
                 EGenerate prompt; EPrint (msg_ideas_error e)])).
Proof.
  split; [| split].
  - exact generate_post_ideas_call_failed.
  - exact main_without_ideas.
  - intros w log strategy prompt e Hl Ht Hp Hg.
    apply (main_without_ideas w log strategy (log ++ [EPrint msg_loading])).
    + rewrite load_strategy_run, Hl. reflexivity.
    + exact Ht.
    + rewrite (generate_post_ideas_call_failed strategy 10 w
                 (log ++ [EPrint msg_loading]) prompt e Hp).
      * flatten_log. reflexivity.
      * flatten_log. exact Hg.
Qed.

Lemma generate_post_ideas_service_failure_witness :
  fst (generate_post_ideas sample_strategy 10
         (sample_world (Ok sample_strategy) (scripted [Raise service_down])) [])
  = Ok []
  /\ fst (main (sample_world (Ok sample_strategy) (scripted [Raise service_down]))
            [])
     = Ok tt.
Proof.
  split.
  - refine (f_equal fst
              (proj1 generate_post_ideas_service_failure sample_strategy 10%Z
                 (sample_world (Ok sample_strategy) (scripted [Raise service_down]))
                 [] _ service_down _ _)); reflexivity.
  - refine (f_equal fst
              (proj2 (proj2 generate_post_ideas_service_failure)
                 (sample_world (Ok sample_strategy) (scripted [Raise service_down]))
                 [] sample_strategy _ service_down _ _ _ _)); reflexivity.
Defined.

(** C4. When the idea generator returns the empty list, [main] ends in the
    state the idea generator left: the run is the two opening lines, the one
    service call of the idea generator and its closing line, so there is no
    caption call, no image call and no rendering, and no file is written. *)
Theorem main_no_ideas_no_work w log strategy log1 log2 :
  load_strategy (py "strategy.json") w log = (Ok strategy, log1) ->
  truthy strategy = true ->
  generate_post_ideas strategy 10 w log1 = (Ok [], log2) ->
  main w log = (Ok tt, log2)
  /\ (exists prompt closing,
        log2 = log ++ [EPrint msg_loading; EPrint (msg_generating 10);
                       EGenerate prompt; EPrint closing])
  /\ written log2 = written log
  /\ (List.length (service_calls log2) = S (List.length (service_calls log))).
Proof.
  intros Hl Ht Hg. split; [exact (main_without_ideas w log strategy log1 log2 Hl Ht Hg) |].
  rewrite load_strategy_run in Hl. inversion Hl as [[Hload Hlog1]].
  assert (exists prompt closing,
            log2 = log ++ [EPrint msg_loading; EPrint (msg_generating 10);
                           EGenerate prompt; EPrint closing]) as (prompt & closing & E).
  { apply generate_post_ideas_cases in Hg.
    destruct Hg as [(e & H & _) | [(prompt & text & ideas & _ & _ & _ & H)
                                  | (prompt & e & _ & H)]].
    - discriminate H.
    - exists prompt, (msg_got ideas). rewrite H, <- Hlog1. flatten_log. reflexivity.
    - exists prompt, (msg_ideas_error e). rewrite H, <- Hlog1. flatten_log. reflexivity. }
  split; [eauto |]. rewrite E, written_app, service_calls_app, length_app.
  cbn [written service_calls List.length]. rewrite app_nil_r. split; [reflexivity | lia].
Qed.

Lemma main_no_ideas_no_work_witness :
  fst (main (sample_world (Ok sample_strategy)
               (scripted [Ok (py "no list today")])) [])
  = Ok tt.
Proof.
  refine (f_equal fst
            (proj1 (main_no_ideas_no_work
                      (sample_world (Ok sample_strategy)
                         (scripted [Ok (py "no list today")]))
                      [] sample_strategy _ _ eq_refl eq_refl _))).
  vm_compute. reflexivity.
Defined.

(** C10. When the strategy file parses to a false value, such as the empty
    object, [load_strategy] returns it without raising and [main] returns at
    its first test: the run is the opening line only, with no service call, no
    file written and no error. *)
Theorem main_falsy_strategy w log v :
  w_load_json w (py "strategy.json") = Ok v ->
  truthy v = false ->
  load_strategy (py "strategy.json") w log = (Ok v, log ++ [EPrint msg_loading])
  /\ main w log = (Ok tt, log ++ [EPrint msg_loading])
  /\ service_calls (log ++ [EPrint msg_loading]) = service_calls log
  /\ written (log ++ [EPrint msg_loading]) = written log.
Proof.
  intros Hl Ht.
  assert (load_strategy (py "strategy.json") w log
          = (Ok v, log ++ [EPrint msg_loading])) as H
    by (rewrite load_strategy_run, Hl; reflexivity).
  split; [exact H | split; [| split]].
  - unfold main. rewrite (bind_ok _ _ _ _ _ _ H), Ht. reflexivity.
  - rewrite service_calls_app. apply app_nil_r.
  - rewrite written_app. apply app_nil_r.
Qed.

Lemma main_falsy_strategy_witness :
  truthy (JDict []) = false
  /\ main (sample_world (Ok (JDict [])) (scripted [])) []
     = (Ok tt, [] ++ [EPrint msg_loading]).
Proof.
  split; [reflexivity |].
  exact (proj1 (proj2 (main_falsy_strategy
                         (sample_world (Ok (JDict [])) (scripted [])) []
                         (JDict []) eq_refl eq_refl))).
Defined.

(** C5. The posts that [main] hands to the renderer follow the ideas: the
    N-th post carries the N-th idea, for every N, and it is this list, in this
    order, that the template is rendered on and that makes the report
    written. *)
Theorem main_posts_follow_ideas w log strategy log1 ideas log2 :
  load_strategy (py "strategy.json") w log = (Ok strategy, log1) ->
  truthy strategy = true ->
  generate_post_ideas strategy 10 w log1 = (Ok ideas, log2) ->
  ideas <> [] ->
  captionable strategy ->
  exists posts log3,
    main_loop strategy 1 ideas [] w log2 = (Ok posts, log3)
    /\ main w log = generate_dashboard posts (py "dashboard.html") w log3
    /\ map idea posts = ideas
    /\ (forall N, option_map idea (nth_error posts N) = nth_error ideas N)
    /\ forall tmpl html,
         w_get_template w (py "templates") (py "dashboard.html") = Ok tmpl ->
         tmpl posts (strftime_month (w_now w)) (strftime_stamp (w_now w)) = Ok html ->
         w_open_write w (py "dashboard.html") = Ok tt ->
         main w log =
         (Ok tt,
          log3 ++ [EPrint msg_rendering; EWrite (py "dashboard.html") html;
                   EPrint (msg_created (py "dashboard.html"))]).
Proof.
  intros Hl Ht Hg Hne Hs.
  destruct (main_loop_total strategy Hs ideas 1%Z [] w log2)
    as (posts & log3 & Hrun & Hideas & _ & _).
  cbn [app] in Hrun. exists posts, log3.
  assert (main w log = generate_dashboard posts (py "dashboard.html") w log3) as Hmain.
  { rewrite (main_with_ideas w log strategy log1 ideas log2 Hl Ht Hg Hne).
    rewrite (bind_ok _ _ _ _ _ _ Hrun). reflexivity. }
  split; [exact Hrun | split; [exact Hmain | split; [exact Hideas | split]]].
  - intros N. rewrite <- Hideas, nth_error_map. reflexivity.
  - intros tmpl html Htm Hr Ho. rewrite Hmain.
    apply (generate_dashboard_run posts (py "dashboard.html") w log3 tmpl html Htm Hr Ho).
Qed.

Lemma main_posts_follow_ideas_witness :
  exists posts log3,
    main_loop sample_strategy 1
      [py "Quick tip on grading."; py "Share a class story."] []
      (sample_world (Ok sample_strategy)
         (scripted [Ok (join [nl] (map line_text sample_lines));
                    Ok (py " Grade smarter! "); Raise service_down]))
      (snd (generate_post_ideas sample_strategy 10
              (sample_world (Ok sample_strategy)
                 (scripted [Ok (join [nl] (map line_text sample_lines));
                            Ok (py " Grade smarter! "); Raise service_down]))
              [EPrint msg_loading]))
    = (Ok posts, log3)
    /\ map idea posts = [py "Quick tip on grading."; py "Share a class story."].
Proof.
  destruct (main_posts_follow_ideas
              (sample_world (Ok sample_strategy)
                 (scripted [Ok (join [nl] (map line_text sample_lines));
                            Ok (py " Grade smarter! "); Raise service_down]))
              [] sample_strategy [EPrint msg_loading]
              [py "Quick tip on grading."; py "Share a class story."]
              (snd (generate_post_ideas sample_strategy 10
                      (sample_world (Ok sample_strategy)
                         (scripted [Ok (join [nl] (map line_text sample_lines));
                                    Ok (py " Grade smarter! "); Raise service_down]))
                      [EPrint msg_loading]))
              eq_refl eq_refl eq_refl ltac:(discriminate)
              sample_strategy_captionable)
    as (posts & log3 & Hrun & _ & Hideas & _).
  exists posts, log3. split; [exact Hrun | exact Hideas].
Defined.

(** The end-to-end example: one idea, one post, one report. *)
Example end_to_end_example :
  written (snd (main (sample_world (Ok sample_strategy)
                        (scripted [Ok (py "1. Quick tip on grading.");
                                   Ok (py " Grade smarter! ")])) []))
  = [ (py "dashboard.html",
       py "November 2026" ++ [nl] ++ py "2026-11-04 09:05:07" ++ [nl]
       ++ py "Quick tip on grading." ++ [nl] ++ py "Grade smarter!" ++ [nl]
       ++ py "https://placehold.co/600x400/1E90FF/FFFFFF?text=Image+for+Post+1"
       ++ [nl]) ].
Proof. vm_compute. reflexivity. Qed.

(** ** Further properties: the parser *)

Lemma contains_partition sub s :
  contains sub s = match partition sub s with Some _ => true | None => false end.
Proof. reflexivity. Qed.

Lemma ideas_of_lines_closed L :
  ideas_of_lines L =
  if existsb blank_entry L
  then Raise (Exn IndexError (py "list index out of range"))
  else Ok (map cut (filter (contains delim) L)).
Proof.
  induction L as [| l L IH]; [reflexivity |].
  cbn [ideas_of_lines existsb filter]. unfold blank_entry at 1, cut.
  destruct (contains delim l) eqn:Ec; [| exact IH].
  rewrite (contains_partition delim (strip l)).
  unfold split. rewrite delim_eq at 1. rewrite delim_eq at 1.
  change (Z.to_nat 1) with 1%nat. cbn [split_n Z.ltb Z.compare rbind].
  rewrite <- delim_eq.
  destruct (partition delim (strip l)) as [[a b] |] eqn:E;
    cbn [index nth_error rbind andb negb orb map]; [| reflexivity].
  rewrite IH. unfold cut. rewrite E.
  destruct (existsb blank_entry L); reflexivity.
Qed.

(** X1. The parser in closed form: it raises [IndexError] exactly when some
    line of the stripped response holds the delimiter and loses it when
    stripped; otherwise it returns, for the lines that hold the delimiter and
    in their order, what follows the leftmost delimiter of the stripped
    line. *)
Theorem parse_ideas_closed_form text :
  parse_ideas text =
  if existsb blank_entry (lines (strip text))
  then Raise (Exn IndexError (py "list index out of range"))
  else Ok (map cut (filter (contains delim) (lines (strip text)))).
Proof.
  unfold parse_ideas. rewrite split_lines. cbn [rbind].
  apply ideas_of_lines_closed.
Qed.

(** X2. Whatever the response, [generate_post_ideas] returns an idea for
    every line that holds the delimiter, or nothing at all: one line that
    loses the delimiter when stripped empties the result.  The number of
    ideas asked for plays no part. *)
Theorem generate_post_ideas_all_or_nothing strategy num_posts w log prompt text :
  ideas_prompt strategy num_posts w = Ok prompt ->
  w_generate w (log ++ [EPrint (msg_generating num_posts)]) prompt = Ok text ->
  fst (generate_post_ideas strategy num_posts w log) =
  Ok (if existsb blank_entry (lines (strip text)) then []
      else map cut (filter (contains delim) (lines (strip text)))).
Proof.
  intros Hp Hg.
  assert (parse_ideas text =
          if existsb blank_entry (lines (strip text))
          then Raise (Exn IndexError (py "list index out of range"))
          else Ok (map cut (filter (contains delim) (lines (strip text))))) as Hc.
  { unfold parse_ideas. rewrite split_lines. cbn [rbind].
    apply ideas_of_lines_closed. }
  destruct (existsb blank_entry (lines (strip text))).
  - rewrite (generate_post_ideas_parse_failed _ _ _ _ _ _ _ Hp Hg Hc). reflexivity.
  - rewrite (generate_post_ideas_parsed _ _ _ _ _ _ _ Hp Hg Hc). reflexivity.
Qed.

Lemma generate_post_ideas_all_or_nothing_witness :
  fst (generate_post_ideas sample_strategy 3
         (sample_world (Ok sample_strategy)
            (scripted [Ok (join [nl] (map line_text sample_lines))])) [])
  = Ok [py "Quick tip on grading."; py "Share a class story."].
Proof.
  exact (generate_post_ideas_all_or_nothing sample_strategy 3
           (sample_world (Ok sample_strategy)
              (scripted [Ok (join [nl] (map line_text sample_lines))]))
           [] _ _ eq_refl eq_refl).
Defined.

Lemma lstrip_blank_app a t : forallb isspace a = true -> lstrip (a ++ t) = lstrip t.
Proof.
  induction a as [| c a IH]; [reflexivity |].
  cbn [forallb app lstrip]. intros H. apply andb_true_iff in H as [Hc Ha].
  rewrite Hc. exact (IH Ha).
Qed.

Lemma rstrip_app_blank t b : forallb isspace b = true -> rstrip (t ++ b) = rstrip t.
Proof.
  intros H. rewrite rstrip_app. apply rstrip_nil_iff in H. rewrite H. reflexivity.
Qed.

(** X3. Whitespace around the response, blank lines included, does not
    change what the parser returns. *)
Theorem parse_ideas_ignores_margins before text after :
  forallb isspace before = true ->
  forallb isspace after = true ->
  parse_ideas (before ++ text ++ after) = parse_ideas text.
Proof.
  intros Hb Ha. unfold parse_ideas.
  replace (strip (before ++ text ++ after)) with (strip text); [reflexivity |].
  rewrite (strip_lstrip_rstrip (before ++ text ++ after)), app_assoc.
  rewrite (rstrip_app_blank _ _ Ha), <- strip_lstrip_rstrip.
  unfold strip. rewrite (lstrip_blank_app _ _ Hb). reflexivity.
Qed.

Lemma parse_ideas_ignores_margins_witness :
  parse_ideas ([nl; nl] ++ py "1. Quick tip on grading." ++ py "  " ++ [nl])
  = parse_ideas (py "1. Quick tip on grading.").
Proof.
  exact (parse_ideas_ignores_margins [nl; nl] (py "1. Quick tip on grading.")
           (py "  " ++ [nl]) eq_refl eq_refl).
Defined.

Lemma join_cons_ne sep x L :
  L <> [] -> join sep (x :: L) = x ++ sep ++ join sep L.
Proof. destruct L; [congruence | reflexivity]. Qed.

Lemma with_cr_not_nil L : L <> [] -> with_cr L <> [].
Proof. destruct L as [| x [| y L]]; [congruence | discriminate | discriminate]. Qed.

Lemma with_cr_cons x L : L <> [] -> with_cr (x :: L) = (x ++ [cr]) :: with_cr L.
Proof. destruct L; [congruence | reflexivity]. Qed.

Lemma join_crlf L : join crlf L = join [nl] (with_cr L).
Proof.
  induction L as [| x L IH]; [reflexivity |].
  destruct L as [| y L]; [reflexivity |].
  rewrite with_cr_cons by discriminate.
  rewrite (join_cons_ne crlf) by discriminate.
  rewrite (join_cons_ne [nl]) by (apply with_cr_not_nil; discriminate).
  rewrite IH, <- app_assoc. reflexivity.
Qed.

Lemma join_lines s : join [nl] (lines s) = s.
Proof.
  induction s as [| c s IH]; [reflexivity |].
  cbn [lines]. destruct (N.eqb_spec c nl) as [-> | _].
  - rewrite join_cons_ne by apply lines_not_nil. rewrite IH. reflexivity.
  - destruct (lines s) as [| l [| l' r]] eqn:E.
    + exfalso. exact (lines_not_nil s E).
    + cbn [join] in *. rewrite IH. reflexivity.
    + rewrite join_cons in *. rewrite <- IH. reflexivity.
Qed.

Lemma lines_single_line s : Forall (fun l => ~ In nl l) (lines s).
Proof.
  induction s as [| c s IH]; [constructor; [intros [] | constructor] |].
  cbn [lines]. destruct (N.eqb_spec c nl) as [-> | Hc].
  - constructor; [intros [] | exact IH].
  - destruct (lines s) as [| l r]; [constructor; [| constructor] |].
    + intros [H | []]. exact (Hc H).
    + inversion IH as [| ? ? Hl Hr]; subst. constructor; [| exact Hr].
      intros [H | H]; [exact (Hc H) | exact (Hl H)].
Qed.

Lemma join_blank L :
  forallb (forallb isspace) L = true -> forallb isspace (join [nl] L) = true.
Proof.
  induction L as [| x L IH]; [reflexivity |].
  cbn [forallb]. intros H. apply andb_true_iff in H as [Hx HL].
  destruct L as [| y L]; [exact Hx |].
  rewrite join_cons, forallb_app, Hx. cbn [app forallb andb].
  apply IH, HL.
Qed.

Lemma blank_lines_forallb L :
  Forall (fun l => forallb isspace l = true) L <-> forallb (forallb isspace) L = true.
Proof. rewrite forallb_forall, Forall_forall. reflexivity. Qed.

(** The lines of a text stripped on the right. *)
Lemma lines_rstrip_join L :
  L <> [] -> Forall (fun l => ~ In nl l) L ->
  lines (rstrip (join [nl] L)) = rstrip_lines L.
Proof.
  induction L as [| t L IH]; [congruence |].
  intros _ H. inversion H as [| ? ? Hnl HL]; subst.
  destruct L as [| t2 R].
  - cbn [join rstrip_lines forallb]. apply lines_no_nl, no_nl_rstrip, Hnl.
  - specialize (IH ltac:(discriminate) HL).
    rewrite join_cons. cbn [app]. rewrite rstrip_app, rstrip_cons.
    cbn [rstrip_lines].
    destruct (rstrip (join [nl] (t2 :: R))) as [| d r] eqn:E.
    + change (isspace nl) with true. cbv iota.
      apply rstrip_nil_iff, blank_join, blank_lines_forallb in E. rewrite E.
      apply lines_no_nl, no_nl_rstrip, Hnl.
    + destruct (forallb (forallb isspace) (t2 :: R)) eqn:Eb.
      * apply join_blank, rstrip_nil_iff in Eb. congruence.
      * rewrite (lines_app_nl _ _ Hnl), IH. reflexivity.
Qed.

Lemma contains_delim_snoc t c :
  (32 =? c)%N = false -> contains delim (t ++ [c]) = contains delim t.
Proof.
  intros Hc. unfold contains. induction t as [| a t IH].
  - rewrite delim_eq. cbn [app partition startswith]. rewrite andb_false_r. reflexivity.
  - cbn [app partition].
    replace (startswith delim (a :: t ++ [c])) with (startswith delim (a :: t)).
    + destruct (startswith delim (a :: t)); [reflexivity |].
      destruct (partition delim (t ++ [c])) as [[x y] |];
        destruct (partition delim t) as [[x' y'] |]; try reflexivity; discriminate IH.
    + rewrite delim_eq. destruct t as [| b t]; cbn [app startswith].
      * rewrite Hc. reflexivity.
      * reflexivity.
Qed.

Lemma strip_snoc_cr x : strip (x ++ [cr]) = strip x.
Proof.
  rewrite (strip_lstrip_rstrip (x ++ [cr])), (rstrip_app_blank x [cr] eq_refl).
  symmetry. apply strip_lstrip_rstrip.
Qed.

Lemma ideas_cr_line x rest :
  ideas_of_lines ((x ++ [cr]) :: rest) = ideas_of_lines (x :: rest).
Proof.
  apply ideas_head; [apply contains_delim_snoc; reflexivity | apply strip_snoc_cr].
Qed.

Lemma blank_with_cr L :
  forallb (forallb isspace) (with_cr L) = forallb (forallb isspace) L.
Proof.
  induction L as [| x L IH]; [reflexivity |].
  destruct L as [| y L]; [reflexivity |].
  rewrite with_cr_cons by discriminate.
  cbn [forallb] in *. rewrite IH, forallb_app. cbn [forallb].
  change (isspace cr) with true. rewrite !andb_true_r. reflexivity.
Qed.

Lemma ideas_rstrip_lines_cr L :
  ideas_of_lines (rstrip_lines (with_cr L)) = ideas_of_lines (rstrip_lines L).
Proof.
  induction L as [| x L IH]; [reflexivity |].
  destruct L as [| y L]; [reflexivity |].
  rewrite with_cr_cons by discriminate.
  cbn [rstrip_lines] in *. rewrite blank_with_cr.
  destruct (forallb (forallb isspace) (y :: L)).
  - rewrite (rstrip_app_blank x [cr] eq_refl). reflexivity.
  - rewrite ideas_cr_line. apply ideas_tail, IH.
Qed.

Lemma with_cr_single_line L :
  Forall (fun l => ~ In nl l) L -> Forall (fun l => ~ In nl l) (with_cr L).
Proof.
  induction 1 as [| x L Hx HL IH]; [constructor |].
  destruct L as [| y L]; [constructor; [exact Hx | constructor] |].
  rewrite with_cr_cons by discriminate. constructor; [| exact IH].
  intros Hin. apply in_app_or in Hin as [Hin | [Hin | []]];
    [exact (Hx Hin) | discriminate Hin].
Qed.

(** X4. Line ends do not matter: a response whose lines end in CRLF gives
    what the same response with LF line ends gives, ideas or failure. *)
Theorem parse_ideas_crlf text :
  parse_ideas (join crlf (lines text)) = parse_ideas text.
Proof.
  rewrite <- (join_lines text) at 2.
  pose proof (lines_single_line text) as Hnl.
  pose proof (lines_not_nil text) as Hne.
  unfold parse_ideas. rewrite !split_lines. cbn [rbind].
  rewrite join_crlf, !strip_lstrip_rstrip, !ideas_lines_lstrip.
  rewrite (lines_rstrip_join _ (with_cr_not_nil _ Hne) (with_cr_single_line _ Hnl)).
  rewrite (lines_rstrip_join _ Hne Hnl).
  apply ideas_rstrip_lines_cr.
Qed.

Lemma lstrip_suffix s : exists a, s = a ++ lstrip s.
Proof.
  induction s as [| c s [a IH]]; [exists []; reflexivity |].
  cbn [lstrip]. destruct (isspace c).
  - exists (c :: a). cbn [app]. f_equal. exact IH.
  - exists []. reflexivity.
Qed.

Lemma strip_incl c s : In c (strip s) -> In c s.
Proof.
  unfold strip. intros H.
  destruct (rstrip_prefix (lstrip s)) as [b Hb].
  destruct (lstrip_suffix s) as [a Ha].
  rewrite Ha, Hb. apply in_or_app. right. apply in_or_app. left. exact H.
Qed.

(** No idea that [generate_post_ideas] returns runs over a line. *)
Lemma generate_post_ideas_single_line strategy num_posts w log ideas log' :
  generate_post_ideas strategy num_posts w log = (Ok ideas, log') ->
  Forall (fun i => ~ In nl i) ideas.
Proof.
  intros H. apply generate_post_ideas_cases in H.
  destruct H as [(e & H & _)
                | [(prompt & text & ideas' & H & _ & Hi & _) | (prompt & e & H & _)]].
  - discriminate H.
  - inversion H; subst ideas'. apply Forall_forall. intros i Hin Hnl.
    unfold parse_ideas in Hi. rewrite split_lines in Hi. cbn [rbind] in Hi.
    destruct (ideas_of_lines_cut _ _ Hi i Hin) as (line & before & Hl & _ & Hp).
    apply partition_spec in Hp.
    pose proof (lines_single_line (strip text)) as Hs.
    rewrite Forall_forall in Hs. apply (Hs line Hl), strip_incl.
    rewrite Hp. apply in_or_app. right. apply in_or_app. right. exact Hnl.
  - inversion H; subst. constructor.
Qed.

(** ** Further properties: what is not caught *)

(** X6. [generate_post_ideas] raises exactly when its prompt cannot be
    built, which happens before the [try]: the exception is the one of the
    strategy lookup, and the service has not been called. *)
Theorem generate_post_ideas_raises_iff strategy num_posts w log e :
  (ideas_prompt strategy num_posts w = Raise e ->
   generate_post_ideas strategy num_posts w log =
   (Raise e, log ++ [EPrint (msg_generating num_posts)]))
  /\ (forall log',
        generate_post_ideas strategy num_posts w log = (Raise e, log') ->
        ideas_prompt strategy num_posts w = Raise e
        /\ log' = log ++ [EPrint (msg_generating num_posts)]
        /\ service_calls log' = service_calls log).
Proof.
  split.
  - intros Hp. run. rewrite Hp. reflexivity.
  - intros log' H. apply generate_post_ideas_cases in H.
    destruct H as [(e' & H & Hp & Hl)
                  | [(prompt & text & ideas & H & _) | (prompt & e' & H & _)]];
      try discriminate H.
    inversion H; subst e'. split; [exact Hp | split; [exact Hl |]].
    rewrite Hl, service_calls_app. apply app_nil_r.
Qed.

Lemma generate_post_ideas_raises_iff_witness :
  generate_post_ideas (without (py "appName") sample_strategy) 10
    (sample_world (Ok sample_strategy) (scripted [])) []
  = (Raise (Exn KeyError (py "'appName'")), [] ++ [EPrint (msg_generating 10)]).
Proof.
  exact (proj1 (generate_post_ideas_raises_iff
                  (without (py "appName") sample_strategy) 10
                  (sample_world (Ok sample_strategy) (scripted [])) []
                  (Exn KeyError (py "'appName'"))) eq_refl).
Defined.

(** X7. In a dict, the first of [appName], [targetAudience] and
    [contentPillars] that is missing makes the prompt of the idea generator a
    [KeyError] on that key. *)
Theorem ideas_prompt_missing_key d num_posts w :
  (lookup (py "appName") d = None ->
   ideas_prompt (JDict d) num_posts w = Raise (Exn KeyError (py "'appName'")))
  /\ (forall a,
        lookup (py "appName") d = Some a ->
        lookup (py "targetAudience") d = None ->
        ideas_prompt (JDict d) num_posts w
        = Raise (Exn KeyError (py "'targetAudience'")))
  /\ (forall a b,
        lookup (py "appName") d = Some a ->
        lookup (py "targetAudience") d = Some b ->
        lookup (py "contentPillars") d = None ->
        ideas_prompt (JDict d) num_posts w
        = Raise (Exn KeyError (py "'contentPillars'"))).
Proof.
  unfold ideas_prompt, getitem. repeat split.
  - intros ->. reflexivity.
  - intros a -> ->. reflexivity.
  - intros a b -> -> ->. reflexivity.
Qed.

Lemma ideas_prompt_missing_key_witness :
  ideas_prompt (without (py "targetAudience") sample_strategy) 10
    (sample_world (Ok sample_strategy) (scripted []))
  = Raise (Exn KeyError (py "'targetAudience'")).
Proof.
  exact (proj1 (proj2 (ideas_prompt_missing_key
                         [ (py "appName", JStr (py "EduApp"));
                           (py "contentPillars",
                            JList [JStr (py "tips"); JStr (py "stories")]);
                           (py "brandVoice", JStr (py "friendly"));
                           (py "visualStyle", JStr (py "flat illustration")) ]
                         10 (sample_world (Ok sample_strategy) (scripted []))))
           (JStr (py "EduApp")) eq_refl eq_refl).
Defined.

(** X8. When the strategy loads and is true but the prompt of the idea
    generator cannot be built, [main] raises that exception after its two
    opening lines: the service is never called and nothing is written.  A
    true value that is no dict, a list or a number, ends this way with a
    [TypeError]. *)
Theorem main_prompt_failure w log strategy e :
  w_load_json w (py "strategy.json") = Ok strategy ->
  truthy strategy = true ->
  ideas_prompt strategy 10 w = Raise e ->
  main w log = (Raise e, log ++ [EPrint msg_loading; EPrint (msg_generating 10)])
  /\ ((forall d, strategy <> JDict d) -> exn_cls e = TypeError).
Proof.
  intros Hl Ht Hp. split.
  - unfold main.
    rewrite (bind_ok _ _ _ _ strategy (log ++ [EPrint msg_loading]))
      by (rewrite load_strategy_run, Hl; reflexivity).
    rewrite Ht. cbn [negb].
    rewrite (bind_raise _ _ _ _ e
               ((log ++ [EPrint msg_loading]) ++ [EPrint (msg_generating 10)]))
      by (run; rewrite Hp; reflexivity).
    flatten_log. reflexivity.
  - intros Hd. unfold ideas_prompt, getitem in Hp.
    destruct strategy; try (inversion Hp; reflexivity).
    exfalso. exact (Hd d eq_refl).
Qed.

Lemma main_prompt_failure_witness :
  main (sample_world (Ok (JList [JInt 1])) (scripted [])) []
  = (Raise (Exn TypeError (py "indices must be integers")),
     [] ++ [EPrint msg_loading; EPrint (msg_generating 10)]).
Proof.
  exact (proj1 (main_prompt_failure
                  (sample_world (Ok (JList [JInt 1])) (scripted [])) []
                  (JList [JInt 1]) (Exn TypeError (py "indices must be integers"))
                  eq_refl eq_refl eq_refl)).
Defined.

(** X9. When the strategy file cannot be opened or parsed, [main] raises the
    loader's exception after the opening line and does nothing else. *)
Theorem main_load_failure w log e :
  w_load_json w (py "strategy.json") = Raise e ->
  main w log = (Raise e, log ++ [EPrint msg_loading]).
Proof.
  intros Hl. unfold main. apply bind_raise.
  rewrite load_strategy_run, Hl. reflexivity.
Qed.

Lemma main_load_failure_witness :
  main (sample_world (Raise service_down) (scripted [])) []
  = (Raise service_down, [] ++ [EPrint msg_loading]).
Proof.
  exact (main_load_failure (sample_world (Raise service_down) (scripted [])) []
           service_down eq_refl).
Defined.

(** ** Further properties: captions and images *)

(** What the caption generator can return and do, whatever the world. *)
Lemma generate_caption_cases strategy x w log r log' :
  generate_caption strategy x w log = (r, log') ->
  (exists e, r = Raise e /\ caption_prompt strategy x w = Raise e
             /\ log' = log ++ [EPrint (msg_writing x)])
  \/ (exists prompt text,
        caption_prompt strategy x w = Ok prompt
        /\ r = Ok (strip text)
        /\ log' = log ++ [EPrint (msg_writing x); EGenerate prompt])
  \/ (exists prompt e,
        caption_prompt strategy x w = Ok prompt
        /\ r = Ok caption_sentinel
        /\ log' = log ++ [EPrint (msg_writing x); EGenerate prompt;
                          EPrint (msg_caption_error e)]).
Proof.
  destruct (caption_prompt strategy x w) as [prompt | e] eqn:Hp.
  - destruct (w_generate w (log ++ [EPrint (msg_writing x)]) prompt)
      as [text | e] eqn:Hg.
    + rewrite (generate_caption_ok _ _ _ _ _ _ Hp Hg).
      intros H. inversion H; subst. right. left. eauto.
    + rewrite (generate_caption_failed _ _ _ _ _ _ Hp Hg).
      intros H. inversion H; subst. right. right. eauto.
  - run. rewrite Hp. intros H. inversion H; subst. left. eauto.
Qed.

Lemma leading_space_lstrip s : leading_space (lstrip s) = false.
Proof.
  induction s as [| c s IH]; [reflexivity |].
  cbn [lstrip]. destruct (isspace c) eqn:E; [exact IH | exact E].
Qed.

Lemma leading_space_strip s : leading_space (strip s) = false.
Proof. apply leading_space_rstrip, leading_space_lstrip. Qed.

(** X10. A caption that [generate_caption] returns, the text of the service
    or the sentinel, neither begins nor ends with whitespace. *)
Theorem generate_caption_trimmed strategy x w log c log' :
  generate_caption strategy x w log = (Ok c, log') ->
  leading_space c = false /\ trailing_space c = false.
Proof.
  intros H. apply generate_caption_cases in H.
  destruct H as [(e & H & _)
                | [(prompt & text & _ & H & _) | (prompt & e & _ & H & _)]].
  - discriminate H.
  - inversion H; subst. split; [apply leading_space_strip | apply trailing_space_strip].
  - inversion H; subst. split; reflexivity.
Qed.

Lemma generate_caption_trimmed_witness :
  leading_space (py "Stories stick. #teaching") = false
  /\ trailing_space (py "Stories stick. #teaching") = false.
Proof.
  refine (generate_caption_trimmed sample_strategy (py "Share a class story.")
            (sample_world (Ok sample_strategy)
               (scripted [Ok (py " Stories stick. #teaching ")]))
            [] _ _ _).
  vm_compute. reflexivity.
Defined.

(** X11. [generate_caption] raises exactly when its prompt cannot be built,
    a key of the strategy missing: the lookup is outside the [try], so no
    sentinel is returned and the service is not called.  In [main] this ends
    the run at the first idea, with nothing written. *)
Theorem generate_caption_missing_key :
  (forall strategy x w log e,
     caption_prompt strategy x w = Raise e ->
     generate_caption strategy x w log = (Raise e, log ++ [EPrint (msg_writing x)]))
  /\ (forall strategy x w log e log',
        generate_caption strategy x w log = (Raise e, log') ->
        caption_prompt strategy x w = Raise e)
  /\ (forall w log strategy log1 x rest log2 e,
        load_strategy (py "strategy.json") w log = (Ok strategy, log1) ->
        truthy strategy = true ->
        generate_post_ideas strategy 10 w log1 = (Ok (x :: rest), log2) ->
        caption_prompt strategy x w = Raise e ->
        main w log = (Raise e, log2 ++ [EPrint (msg_writing x)])).
Proof.
  split; [| split].
  - intros strategy x w log e Hp. run. rewrite Hp. reflexivity.
  - intros strategy x w log e log' H. apply generate_caption_cases in H.
    destruct H as [(e' & H & Hp & _)
                  | [(prompt & text & _ & H & _) | (prompt & e' & _ & H & _)]];
      try discriminate H.
    inversion H; subst. exact Hp.
  - intros w log strategy log1 x rest log2 e Hl Ht Hg Hp.
    rewrite (main_with_ideas w log strategy log1 (x :: rest) log2 Hl Ht Hg)
      by discriminate.
    apply bind_raise. cbn [main_loop]. apply bind_raise.
    run. rewrite Hp. reflexivity.
Qed.

Lemma generate_caption_missing_key_witness :
  main (sample_world (Ok (without (py "brandVoice") sample_strategy))
          (scripted [Ok (py "1. Quick tip on grading.")])) []
  = (Raise (Exn KeyError (py "'brandVoice'")),
     snd (generate_post_ideas (without (py "brandVoice") sample_strategy) 10
            (sample_world (Ok (without (py "brandVoice") sample_strategy))
               (scripted [Ok (py "1. Quick tip on grading.")]))
            [EPrint msg_loading])
     ++ [EPrint (msg_writing (py "Quick tip on grading."))]).
Proof.
  exact (proj2 (proj2 generate_caption_missing_key)
           (sample_world (Ok (without (py "brandVoice") sample_strategy))
              (scripted [Ok (py "1. Quick tip on grading.")]))
           [] (without (py "brandVoice") sample_strategy) [EPrint msg_loading]
           (py "Quick tip on grading.") [] _ (Exn KeyError (py "'brandVoice'"))
           eq_refl eq_refl eq_refl eq_refl).
Defined.

(** X12. When the strategy has what the caption prompt reads and lacks
    [visualStyle], the loop of [main] stops in its first round, after the
    caption call: one service call is spent, no post is kept and nothing is
    written. *)
Theorem main_loop_missing_style strategy i x rest all_posts w log prompt e :
  caption_prompt strategy x w = Ok prompt ->
  image_prompt_of strategy x w = Raise e ->
  exists log',
    main_loop strategy i (x :: rest) all_posts w log = (Raise e, log')
    /\ service_calls log' = service_calls log ++ [prompt]
    /\ written log' = written log.
Proof.
  intros Hp Hi. cbn [main_loop].
  destruct (generate_caption strategy x w log) as [r log1] eqn:Hc.
  pose proof Hc as Hcases. apply generate_caption_cases in Hcases.
  destruct Hcases as [(e' & _ & Hp' & _)
                     | [(p & text & Hp' & Hr & Hlog) | (p & e' & Hp' & Hr & Hlog)]].
  - congruence.
  - assert (p = prompt) by congruence. subst p r log1.
    exists (log ++ [EPrint (msg_writing x); EGenerate prompt]).
    rewrite (bind_ok _ _ _ _ _ _ Hc). split.
    + apply bind_raise. unfold eval. rewrite Hi. reflexivity.
    + rewrite service_calls_app, written_app. cbn [service_calls written].
      rewrite app_nil_r. split; reflexivity.
  - assert (p = prompt) by congruence. subst p r log1.
    exists (log ++ [EPrint (msg_writing x); EGenerate prompt;
                    EPrint (msg_caption_error e')]).
    rewrite (bind_ok _ _ _ _ _ _ Hc). split.
    + apply bind_raise. unfold eval. rewrite Hi. reflexivity.
    + rewrite service_calls_app, written_app. cbn [service_calls written].
      rewrite app_nil_r. split; reflexivity.
Qed.

Lemma main_loop_missing_style_witness :
  exists log',
    main_loop (without (py "visualStyle") sample_strategy) 1
      [py "Quick tip on grading."; py "Share a class story."] []
      (sample_world (Ok sample_strategy) (scripted [Ok (py "Grade smarter!")])) []
    = (Raise (Exn KeyError (py "'visualStyle'")), log')
    /\ service_calls log'
       = service_calls []
         ++ [match caption_prompt (without (py "visualStyle") sample_strategy)
                     (py "Quick tip on grading.")
                     (sample_world (Ok sample_strategy)
                        (scripted [Ok (py "Grade smarter!")])) with
             | Ok p => p
             | Raise _ => []
             end]
    /\ written log' = written [].
Proof.
  exact (main_loop_missing_style (without (py "visualStyle") sample_strategy) 1
           (py "Quick tip on grading.") [py "Share a class story."] []
           (sample_world (Ok sample_strategy) (scripted [Ok (py "Grade smarter!")]))
           [] _ (Exn KeyError (py "'visualStyle'")) eq_refl eq_refl).
Defined.

Lemma py_inj a b : py a = py b -> a = b.
Proof.
  unfold py. intros H.
  rewrite <- (string_of_list_ascii_of_string a), <- (string_of_list_ascii_of_string b).
  f_equal. revert H. generalize (list_ascii_of_string a) (list_ascii_of_string b).
  induction l as [| x l IH]; intros [| y l']; cbn [map]; intros H;
    try discriminate H; [reflexivity |].
  inversion H as [[Hx Hl]]. f_equal; [| apply IH, Hl].
  rewrite <- (ascii_N_embedding x), <- (ascii_N_embedding y), Hx. reflexivity.
Qed.

Lemma to_int_proper z :
  Z.to_int z <> Decimal.Pos Decimal.Nil /\ Z.to_int z <> Decimal.Neg Decimal.Nil.
Proof.
  destruct z; cbn [Z.to_int]; split; try discriminate;
    intros H; inversion H as [H1]; exact (DecimalPos.Unsigned.to_uint_nonnil _ H1).
Qed.

(** Two integers with the same digits are the same. *)
Lemma decimal_inj a b : decimal a = decimal b -> a = b.
Proof.
  unfold decimal. intros H. apply py_inj in H. apply DecimalZ.to_int_inj.
  destruct (to_int_proper a) as [A1 A2]. destruct (to_int_proper b) as [B1 B2].
  pose proof (NilZero.isi _ A1 A2) as Ha. pose proof (NilZero.isi _ B1 B2) as Hb.
  rewrite H in Ha. rewrite Ha in Hb. inversion Hb. reflexivity.
Qed.

Lemma image_url_inj a b : image_url a = image_url b -> a = b.
Proof. unfold image_url. intros H. apply app_inv_head in H. apply decimal_inj, H. Qed.

(** X13. The posts that the loop of [main] makes are numbered from its
    starting index on, one after the other, in their image URL, and no two
    posts share an image URL. *)
Theorem main_loop_image_paths strategy ideas i all_posts w log :
  captionable strategy ->
  exists posts log',
    main_loop strategy i ideas all_posts w log = (Ok (all_posts ++ posts), log')
    /\ (forall n p, nth_error posts n = Some p ->
                    image_path p = image_url (i + Z.of_nat n))
    /\ (forall n m p q,
          nth_error posts n = Some p -> nth_error posts m = Some q ->
          image_path p = image_path q -> n = m).
Proof.
  intros Hs.
  destruct (main_loop_total strategy Hs ideas i all_posts w log)
    as (posts & log' & Hrun & _ & _ & Himg).
  exists posts, log'. split; [exact Hrun | split; [exact Himg |]].
  intros n m p q Hp Hq E.
  rewrite (Himg n p Hp), (Himg m q Hq) in E. apply image_url_inj in E. lia.
Qed.

Lemma main_loop_image_paths_witness :
  exists posts log',
    main_loop sample_strategy 1 [py "Quick tip on grading."; py "Share a class story."]
      [] (sample_world (Ok sample_strategy) (scripted [])) []
    = (Ok ([] ++ posts), log')
    /\ (forall n p, nth_error posts n = Some p ->
                    image_path p = image_url (1 + Z.of_nat n))
    /\ (forall n m p q,
          nth_error posts n = Some p -> nth_error posts m = Some q ->
          image_path p = image_path q -> n = m).
Proof.
  exact (main_loop_image_paths sample_strategy
           [py "Quick tip on grading."; py "Share a class story."] 1 []
           (sample_world (Ok sample_strategy) (scripted [])) []
           sample_strategy_captionable).
Defined.

Lemma slept_app a b : slept (a ++ b) = (slept a + slept b)%Z.
Proof.
  induction a as [| [l | p | n | p c] a IH]; cbn [app slept]; rewrite ?IH; lia.
Qed.

(** X14. With a strategy that has the keys the prompts read, the loop of
    [main] calls the service once per idea and sleeps one second per idea,
    the last idea included, whatever the service answers; it writes no
    file. *)
Theorem main_loop_effort strategy :
  captionable strategy ->
  forall ideas i all_posts w log,
  exists posts events,
    main_loop strategy i ideas all_posts w log = (Ok posts, log ++ events)
    /\ List.length (service_calls events) = List.length ideas
    /\ slept events = Z.of_nat (List.length ideas)
    /\ written events = [].
Proof.
  intros Hs. induction ideas as [| x ideas IH]; intros i all_posts w log.
  - exists all_posts, []. rewrite app_nil_r. repeat split.
  - cbn [main_loop].
    destruct (image_prompt_total strategy x w Hs) as [ip Hip].
    destruct (caption_prompt_total strategy x w Hs) as [prompt Hp].
    destruct (generate_caption strategy x w log) as [r log1] eqn:Hc.
    pose proof Hc as Hcases. apply generate_caption_cases in Hcases.
    assert (exists c evs, r = Ok c /\ log1 = log ++ evs
                          /\ List.length (service_calls evs) = 1%nat
                          /\ slept evs = 0%Z /\ written evs = [])
      as (c & evs & -> & -> & Hn & Hz & Hw).
    { destruct Hcases as [(e & _ & Hp' & _)
                         | [(p & text & _ & Hr & Hlog) | (p & e & _ & Hr & Hlog)]].
      - congruence.
      - eexists _, _.
        split; [exact Hr | split; [exact Hlog | split; [| split]; reflexivity]].
      - eexists _, _.
        split; [exact Hr | split; [exact Hlog | split; [| split]; reflexivity]]. }
    rewrite (bind_ok _ _ _ _ _ _ Hc).
    rewrite (bind_ok _ _ _ _ _ _ (eval_ok _ _ (log ++ evs) _ Hip)).
    rewrite (bind_ok _ _ _ _ _ _ (generate_image_run ip i w (log ++ evs))).
    rewrite (bind_ok (sleep 1) _ w _ tt _ eq_refl).
    destruct (IH (i + 1)%Z (all_posts ++ [mkPost x c (image_url i)]) w
                (((log ++ evs) ++ [EPrint (msg_image i)]) ++ [ESleep 1]))
      as (posts & evs' & Hrun & Hn' & Hz' & Hw').
    exists posts, (evs ++ [EPrint (msg_image i); ESleep 1] ++ evs').
    rewrite Hrun. split; [f_equal; flatten_log; reflexivity |].
    rewrite !service_calls_app, !slept_app, !written_app, !length_app.
    cbn [service_calls slept written List.length app].
    rewrite Hn, Hn', Hz, Hz', Hw, Hw'. repeat split; lia.
Qed.

Lemma main_loop_effort_witness :
  exists posts events,
    main_loop sample_strategy 1 [py "Tip on grading"; py "Share a class story."] []
      (sample_world (Ok sample_strategy)
         (scripted [Raise service_down; Ok (py "Stories stick.")])) []
    = (Ok posts, [] ++ events)
    /\ List.length (service_calls events) = 2%nat
    /\ slept events = 2%Z
    /\ written events = [].
Proof.
  exact (main_loop_effort sample_strategy sample_strategy_captionable
           [py "Tip on grading"; py "Share a class story."] 1 []
           (sample_world (Ok sample_strategy)
              (scripted [Raise service_down; Ok (py "Stories stick.")])) []).
Defined.

(** ** Further properties: the report *)

(** X15. When the template cannot be loaded, when rendering raises, or when
    the output file cannot be opened, [generate_dashboard] raises that
    exception after its opening line: no file is written and the closing line
    is not printed. *)
Theorem generate_dashboard_failure posts output_path w log e :
  (w_get_template w (py "templates") (py "dashboard.html") = Raise e ->
   generate_dashboard posts output_path w log
   = (Raise e, log ++ [EPrint msg_rendering]))
  /\ (forall tmpl,
        w_get_template w (py "templates") (py "dashboard.html") = Ok tmpl ->
        tmpl posts (strftime_month (w_now w)) (strftime_stamp (w_now w)) = Raise e ->
        generate_dashboard posts output_path w log
        = (Raise e, log ++ [EPrint msg_rendering]))
  /\ (forall tmpl html,
        w_get_template w (py "templates") (py "dashboard.html") = Ok tmpl ->
        tmpl posts (strftime_month (w_now w)) (strftime_stamp (w_now w)) = Ok html ->
        w_open_write w output_path = Raise e ->
        generate_dashboard posts output_path w log
        = (Raise e, log ++ [EPrint msg_rendering])).
Proof.
  split; [| split].
  - intros Ht. run. rewrite Ht. reflexivity.
  - intros tmpl Ht Hr. run. rewrite Ht, Hr. reflexivity.
  - intros tmpl html Ht Hr Ho. run. rewrite Ht, Hr, Ho. reflexivity.
Qed.

Lemma generate_dashboard_failure_witness :
  generate_dashboard sample_posts (py "dashboard.html")
    (mkWorld (fun _ => []) (fun _ => Ok sample_strategy) (scripted [])
       (fun _ _ => Raise service_down) sample_now (fun _ => Ok tt)) []
  = (Raise service_down, [] ++ [EPrint msg_rendering]).
Proof.
  exact (proj1 (generate_dashboard_failure sample_posts (py "dashboard.html")
                  (mkWorld (fun _ => []) (fun _ => Ok sample_strategy) (scripted [])
                     (fun _ _ => Raise service_down) sample_now (fun _ => Ok tt))
                  [] service_down) eq_refl).
Defined.

Lemma generate_post_ideas_frame strategy num_posts w log r log' :
  generate_post_ideas strategy num_posts w log = (r, log') ->
  exists events, log' = log ++ events /\ written events = [].
Proof.
  intros H. apply generate_post_ideas_cases in H.
  destruct H as [(e & _ & _ & H)
                | [(prompt & text & ideas & _ & _ & _ & H) | (prompt & e & _ & H)]];
    eexists; (split; [exact H | reflexivity]).
Qed.

Lemma generate_caption_frame strategy x w log r log' :
  generate_caption strategy x w log = (r, log') ->
  exists events, log' = log ++ events /\ written events = [].
Proof.
  intros H. apply generate_caption_cases in H.
  destruct H as [(e & _ & _ & H)
                | [(prompt & text & _ & _ & H) | (prompt & e & _ & _ & H)]];
    eexists; (split; [exact H | reflexivity]).
Qed.

Lemma main_loop_frame strategy ideas :
  forall i all_posts w log r log',
    main_loop strategy i ideas all_posts w log = (r, log') ->
    exists events, log' = log ++ events /\ written events = [].
Proof.
  induction ideas as [| x ideas IH]; intros i all_posts w log r log' H.
  - inversion H; subst. exists []. rewrite app_nil_r. split; reflexivity.
  - cbn [main_loop] in H.
    destruct (generate_caption strategy x w log) as [[c | e] log1] eqn:Hc.
    + destruct (generate_caption_frame _ _ _ _ _ _ Hc) as (ev1 & -> & Hw1).
      rewrite (bind_ok _ _ _ _ _ _ Hc) in H.
      destruct (image_prompt_of strategy x w) as [ip | e] eqn:Hi.
      * rewrite (bind_ok _ _ _ _ _ _ (eval_ok _ _ (log ++ ev1) _ Hi)) in H.
        rewrite (bind_ok _ _ _ _ _ _ (generate_image_run ip i w (log ++ ev1))) in H.
        rewrite (bind_ok (sleep 1) _ w _ tt _ eq_refl) in H.
        apply IH in H. destruct H as (ev2 & -> & Hw2).
        exists (ev1 ++ [EPrint (msg_image i); ESleep 1] ++ ev2).
        split; [flatten_log; reflexivity |].
        rewrite !written_app, Hw1, Hw2. reflexivity.
      * rewrite (bind_raise _ _ _ _ e (log ++ ev1)) in H
          by (unfold eval; rewrite Hi; reflexivity).
        inversion H; subst. exists ev1. split; [reflexivity | exact Hw1].
    + rewrite (bind_raise _ _ _ _ _ _ Hc) in H. inversion H; subst.
      exact (generate_caption_frame _ _ _ _ _ _ Hc).
Qed.

Lemma generate_dashboard_frame posts output_path w log r log' :
  generate_dashboard posts output_path w log = (r, log') ->
  exists events,
    log' = log ++ events
    /\ (written events = []
        \/ exists html, r = Ok tt /\ written events = [(output_path, html)]).
Proof.
  run.
  destruct (w_get_template w (py "templates") (py "dashboard.html")) as [tmpl | e].
  - destruct (tmpl posts (strftime_month (w_now w)) (strftime_stamp (w_now w)))
      as [html | e].
    + destruct (w_open_write w output_path) as [[] | e]; intros H; inversion H; subst.
      * exists [EPrint msg_rendering; EWrite output_path html;
                EPrint (msg_created output_path)].
        split; [flatten_log; reflexivity | right; exists html; split; reflexivity].
      * exists [EPrint msg_rendering]. split; [reflexivity | left; reflexivity].
    + intros H; inversion H; subst.
      exists [EPrint msg_rendering]. split; [reflexivity | left; reflexivity].
  - intros H; inversion H; subst.
    exists [EPrint msg_rendering]. split; [reflexivity | left; reflexivity].
Qed.

(** X16. In every world, a run of [main] writes nothing, or it returns
    normally and has written one file, [dashboard.html], once: a run that
    raises leaves no file, whole or partial. *)
Theorem main_writes_at_most_once w log r log' :
  main w log = (r, log') ->
  exists events,
    log' = log ++ events
    /\ (written events = []
        \/ exists html,
             r = Ok tt /\ written events = [(py "dashboard.html", html)]).
Proof.
  intros H. unfold main in H.
  destruct (w_load_json w (py "strategy.json")) as [strategy | e] eqn:Hl.
  - rewrite (bind_ok _ _ _ _ strategy (log ++ [EPrint msg_loading])) in H
      by (rewrite load_strategy_run, Hl; reflexivity).
    destruct (truthy strategy); cbn [negb] in H.
    + destruct (generate_post_ideas strategy 10 w (log ++ [EPrint msg_loading]))
        as [[ideas | e] log2] eqn:Hg.
      * destruct (generate_post_ideas_frame _ _ _ _ _ _ Hg) as (ev1 & -> & Hw1).
        rewrite (bind_ok _ _ _ _ _ _ Hg) in H.
        destruct ideas as [| x ideas].
        -- inversion H; subst. exists ([EPrint msg_loading] ++ ev1).
           split; [flatten_log; reflexivity | left].
           rewrite written_app, Hw1. reflexivity.
        -- destruct (main_loop strategy 1 (x :: ideas) [] w
                       ((log ++ [EPrint msg_loading]) ++ ev1))
             as [[posts | e] log3] eqn:Hloop.
           ++ destruct (main_loop_frame _ _ _ _ _ _ _ _ Hloop) as (ev2 & -> & Hw2).
              rewrite (bind_ok _ _ _ _ _ _ Hloop) in H.
              apply generate_dashboard_frame in H.
              destruct H as (ev3 & -> & Hw3).
              exists ([EPrint msg_loading] ++ ev1 ++ ev2 ++ ev3).
              split; [flatten_log; reflexivity |].
              rewrite !written_app, Hw1, Hw2. exact Hw3.
           ++ destruct (main_loop_frame _ _ _ _ _ _ _ _ Hloop) as (ev2 & -> & Hw2).
              rewrite (bind_raise _ _ _ _ _ _ Hloop) in H. inversion H; subst.
              exists ([EPrint msg_loading] ++ ev1 ++ ev2).
              split; [flatten_log; reflexivity | left].
              rewrite !written_app, Hw1, Hw2. reflexivity.
      * destruct (generate_post_ideas_frame _ _ _ _ _ _ Hg) as (ev1 & -> & Hw1).
        rewrite (bind_raise _ _ _ _ _ _ Hg) in H. inversion H; subst.
        exists ([EPrint msg_loading] ++ ev1).
        split; [flatten_log; reflexivity | left].
        rewrite written_app, Hw1. reflexivity.
    + inversion H; subst. exists [EPrint msg_loading].
      split; [reflexivity | left; reflexivity].
  - rewrite (bind_raise _ _ _ _ e (log ++ [EPrint msg_loading])) in H
      by (rewrite load_strategy_run, Hl; reflexivity).
    inversion H; subst. exists [EPrint msg_loading].
    split; [reflexivity | left; reflexivity].
Qed.

Lemma main_writes_at_most_once_witness :
  exists events,
    snd (main (sample_world (Ok sample_strategy)
                 (scripted [Ok (py "1. Quick tip on grading.");
                            Ok (py " Grade smarter! ")])) [])
    = [] ++ events
    /\ (written events = []
        \/ exists html,
             Ok tt = Ok tt /\ written events = [(py "dashboard.html", html)]).
Proof.
  refine (main_writes_at_most_once
            (sample_world (Ok sample_strategy)
               (scripted [Ok (py "1. Quick tip on grading.");
                          Ok (py " Grade smarter! ")])) [] (Ok tt)
            (snd (main (sample_world (Ok sample_strategy)
                          (scripted [Ok (py "1. Quick tip on grading.");
                                     Ok (py " Grade smarter! ")])) []))
            _).
  vm_compute. reflexivity.
Defined.

(** ** Further properties: ideas are sentences *)

Lemma ideas_of_lines_not_empty L ideas :
  ideas_of_lines L = Ok ideas -> Forall (fun i => i <> []) ideas.
Proof.
  intros H. apply Forall_forall. intros i Hin ->.
  destruct (ideas_of_lines_cut _ _ H [] Hin) as (line & before & _ & _ & Hp).
  apply partition_spec in Hp. rewrite app_nil_r in Hp.
  pose proof (trailing_space_strip line) as Ht.
  rewrite Hp, trailing_space_app in Ht by discriminate. discriminate Ht.
Qed.

(** X5. Every idea that [generate_post_ideas] returns is a sentence: it is
    not empty, stays on one line and does not end in whitespace.  So a
    numbered list written from the returned ideas parses back to the same
    ideas. *)
Theorem generate_post_ideas_round_trip strategy num_posts w log ideas log' :
  generate_post_ideas strategy num_posts w log = (Ok ideas, log') ->
  Forall is_sentence ideas
  /\ forall k, is_numeral k ->
     parse_ideas (join [nl] (map (fun i => k ++ delim ++ i) ideas)) = Ok ideas.
Proof.
  intros H.
  assert (Forall is_sentence ideas) as Hs.
  { pose proof (generate_post_ideas_single_line _ _ _ _ _ _ H) as Hnl.
    apply generate_post_ideas_cases in H.
    destruct H as [(e & H & _)
                  | [(prompt & text & ideas' & H & _ & Hi & _) | (prompt & e & H & _)]].
    - discriminate H.
    - inversion H; subst ideas'.
      pose proof (parse_ideas_trimmed text ideas Hi) as Ht.
      unfold parse_ideas in Hi. rewrite split_lines in Hi. cbn [rbind] in Hi.
      pose proof (ideas_of_lines_not_empty _ _ Hi) as Hne.
      rewrite Forall_forall in *. intros i Hin.
      split; [exact (Hne i Hin) | split; [exact (Hnl i Hin) | exact (Ht i Hin)]].
    - inversion H; subst. constructor. }
  split; [exact Hs |]. intros k Hk.
  pose proof (parse_ideas_numbered (map (fun i => Numbered k i) ideas)) as Hp.
  rewrite map_map in Hp. cbn [line_text] in Hp. rewrite Hp.
  - f_equal. clear. induction ideas as [| i ideas IH]; [reflexivity |].
    cbn [map sentences]. rewrite IH. reflexivity.
  - apply Forall_forall. intros l Hin. apply in_map_iff in Hin as (i & <- & Hi).
    rewrite Forall_forall in Hs. split; [exact Hk | exact (Hs i Hi)].
Qed.

Lemma generate_post_ideas_round_trip_witness :
  Forall is_sentence [py " Quick tip on grading."]
  /\ forall k, is_numeral k ->
     parse_ideas (join [nl] (map (fun i => k ++ delim ++ i)
                               [py " Quick tip on grading."]))
     = Ok [py " Quick tip on grading."].
Proof.
  refine (generate_post_ideas_round_trip sample_strategy 10
            (sample_world (Ok sample_strategy) (scripted [Ok wide_entry_response]))
            [] _ _ _).
  vm_compute. reflexivity.
Defined.
